(** * PowerPlanTray: the idle-triggered power-plan engine

    A shallow embedding of the AFK engine, the active-plan tracker and the
    settings store of [PowerPlanTray.cpp], and the properties of the
    specification that concern them.

    The program is a single-threaded Win32 message loop over process-wide
    globals. Handlers are embedded as computations in a state monad over
    [Sys]: the program's globals, the host (power schemes, registry, input
    clock) and the trace of host calls the program has issued. *)

From Stdlib Require Import ZArith Lia List Bool String.
From Stdlib.Strings Require Import Byte.
From stdpp Require Import base gmap strings list.
Import ListNotations.
Local Open Scope Z_scope.

(** ** Machine integers and bytes *)

Module Mach.

Definition two32 : Z := 2 ^ 32.
Definition two31 : Z := 2 ^ 31.

(** [(DWORD)x] for an [int] or [ULONGLONG] [x]. *)
Definition to_DWORD (z : Z) : Z := z mod two32.

(** [(int)dw] for a [DWORD] [dw]. *)
Definition to_int (z : Z) : Z :=
  let w := z mod two32 in if w <? two31 then w else w - two32.

Definition is_DWORD (z : Z) : Prop := 0 <= z < two32.
Definition is_int (z : Z) : Prop := - two31 <= z < two31.

Definition Z_of_byte (b : byte) : Z := Z.of_N (Byte.to_N b).

Definition byte_of_Z (z : Z) : byte :=
  match Byte.of_N (Z.to_N (z mod 256)) with
  | Some b => b
  | None => x00
  end.

(** Little-endian object representation, as x86/x64 Windows stores a
    [DWORD]. *)
Fixpoint le_decode (l : list byte) : Z :=
  match l with
  | [] => 0
  | b :: l' => Z_of_byte b + 256 * le_decode l'
  end.

Fixpoint le_encode (n : nat) (z : Z) : list byte :=
  match n with
  | O => []
  | S n' => byte_of_Z z :: le_encode n' (z / 256)
  end.

Fixpoint bytes_eqb (a b : list byte) : bool :=
  match a, b with
  | [], [] => true
  | x :: a', y :: b' => Byte.eqb x y && bytes_eqb a' b'
  | _, _ => false
  end.

End Mach.

(** ** GUIDs

    The program only copies GUIDs, compares them with [IsEqualGUID] (a
    comparison of the 16 bytes) and reads or writes them as raw bytes of
    the registry, so a GUID is modelled by its 16-byte object
    representation. *)

Inductive GUID : Type :=
  Guid (b0 b1 b2 b3 b4 b5 b6 b7 b8 b9 b10 b11 b12 b13 b14 b15 : byte).

Definition guid_bytes (g : GUID) : list byte :=
  let 'Guid b0 b1 b2 b3 b4 b5 b6 b7 b8 b9 b10 b11 b12 b13 b14 b15 := g in
  [b0; b1; b2; b3; b4; b5; b6; b7; b8; b9; b10; b11; b12; b13; b14; b15].

Definition guid_of_bytes (l : list byte) : option GUID :=
  match l with
  | [b0; b1; b2; b3; b4; b5; b6; b7; b8; b9; b10; b11; b12; b13; b14; b15] =>
      Some (Guid b0 b1 b2 b3 b4 b5 b6 b7 b8 b9 b10 b11 b12 b13 b14 b15)
  | _ => None
  end.

(** [GUID{}]: the value-initialised, all-zero GUID ("unset"). *)
Definition GUID_NULL : GUID :=
  Guid x00 x00 x00 x00 x00 x00 x00 x00 x00 x00 x00 x00 x00 x00 x00 x00.

Definition sizeof_GUID : Z := 16.
Definition sizeof_DWORD : Z := 4.

Definition IsEqualGUID (a b : GUID) : bool :=
  Mach.bytes_eqb (guid_bytes a) (guid_bytes b).

(** ** The registry key [HKCU\Software\PowerPlanTray] *)

Inductive RegType : Type := REG_SZ | REG_BINARY | REG_DWORD | REG_QWORD.

Definition RegType_eqb (a b : RegType) : bool :=
  match a, b with
  | REG_SZ, REG_SZ | REG_BINARY, REG_BINARY
  | REG_DWORD, REG_DWORD | REG_QWORD, REG_QWORD => true
  | _, _ => false
  end.

Record RegValue : Type := mkRegValue {
  rv_type : RegType;
  rv_data : list byte
}.

Record Registry : Type := mkRegistry {
  (** the named values of the key; [None] while the key does not exist *)
  reg_key : option (gmap string RegValue);
  (** whether the key can be opened with [KEY_QUERY_VALUE] *)
  reg_query_ok : bool;
  (** whether the key can be opened or created with [KEY_SET_VALUE] *)
  reg_set_ok : bool
}.

(** ** The host and the program state *)

Record PlanItem : Type := mkPlanItem {
  guid : GUID;
  name : string
}.

(** What the program has asked of the host, oldest first. *)
Inductive Call : Type :=
| PowerSetActiveScheme (g : GUID) (ok : bool)
| Shell_NotifyIcon_ADD (tip : string)
| Shell_NotifyIcon_MODIFY (tip : string)
| Shell_NotifyIcon_DELETE
| RegisterPowerSettingNotification
| SetTimer (id ms : Z)
| KillTimer (id : Z)
| TrackPopupMenu (plans : list PlanItem)
| SetStartupEnabled (enable : bool)
| DestroyWindow
| PostQuitMessage
| DefWindowProc.

Record Host : Type := mkHost {
  (** the scheme [PowerGetActiveScheme] yields; [None] when the call fails *)
  os_active : option GUID;
  (** whether [PowerSetActiveScheme] succeeds for a scheme *)
  os_accepts : GUID -> bool;
  (** the schemes [PowerEnumerate] lists, in its order, each with the
      friendly name [PowerReadFriendlyName] yields ([None] when it fails) *)
  os_schemes : list (GUID * option string);
  (** [LASTINPUTINFO.dwTime]; [None] when [GetLastInputInfo] fails *)
  os_last_input : option Z;
  (** [GetTickCount64()] *)
  os_tick_count : Z;
  os_registry : Registry;
  (** whether [CreateWindowW] yields a window *)
  os_window_ok : bool;
  (** whether the user has the program registered in the Run key *)
  os_startup : bool;
  (** the resource string [IDS_TRAY_TOOLTIP_DEFAULT] *)
  res_tooltip_default : string
}.

Record Globals : Type := mkGlobals {
  g_lastActiveGuid : GUID;
  g_afkTimeoutMinutes : Z;   (* int; 0 = Off *)
  g_afkTargetGuid : GUID;    (* Target plan when AFK *)
  g_afkPrevGuid : GUID;      (* Plan before AFK switch *)
  g_afkApplied : bool        (* Whether AFK plan is currently applied *)
}.

Record Sys : Type := mkSys {
  globals : Globals;
  host : Host;
  trace : list Call
}.

(** The globals as the C++ initialisers leave them at process start. *)
Definition initial_globals : Globals :=
  {| g_lastActiveGuid := GUID_NULL;
     g_afkTimeoutMinutes := 0;
     g_afkTargetGuid := GUID_NULL;
     g_afkPrevGuid := GUID_NULL;
     g_afkApplied := false |}.

Definition initial (h : Host) : Sys :=
  {| globals := initial_globals; host := h; trace := [] |}.

(** The host changes under the program between two messages: other
    applications and the user switch plans, time passes, input arrives. *)
Definition with_host (h : Host) (s : Sys) : Sys :=
  {| globals := globals s; host := h; trace := trace s |}.

Definition with_globals (g : Globals) (s : Sys) : Sys :=
  {| globals := g; host := host s; trace := trace s |}.

Definition set_lastActiveGuid (v : GUID) (g : Globals) : Globals :=
  {| g_lastActiveGuid := v;
     g_afkTimeoutMinutes := g_afkTimeoutMinutes g;
     g_afkTargetGuid := g_afkTargetGuid g;
     g_afkPrevGuid := g_afkPrevGuid g;
     g_afkApplied := g_afkApplied g |}.

Definition set_afkTimeoutMinutes (v : Z) (g : Globals) : Globals :=
  {| g_lastActiveGuid := g_lastActiveGuid g;
     g_afkTimeoutMinutes := v;
     g_afkTargetGuid := g_afkTargetGuid g;
     g_afkPrevGuid := g_afkPrevGuid g;
     g_afkApplied := g_afkApplied g |}.

Definition set_afkTargetGuid (v : GUID) (g : Globals) : Globals :=
  {| g_lastActiveGuid := g_lastActiveGuid g;
     g_afkTimeoutMinutes := g_afkTimeoutMinutes g;
     g_afkTargetGuid := v;
     g_afkPrevGuid := g_afkPrevGuid g;
     g_afkApplied := g_afkApplied g |}.

Definition set_afkPrevGuid (v : GUID) (g : Globals) : Globals :=
  {| g_lastActiveGuid := g_lastActiveGuid g;
     g_afkTimeoutMinutes := g_afkTimeoutMinutes g;
     g_afkTargetGuid := g_afkTargetGuid g;
     g_afkPrevGuid := v;
     g_afkApplied := g_afkApplied g |}.

Definition set_afkApplied (v : bool) (g : Globals) : Globals :=
  {| g_lastActiveGuid := g_lastActiveGuid g;
     g_afkTimeoutMinutes := g_afkTimeoutMinutes g;
     g_afkTargetGuid := g_afkTargetGuid g;
     g_afkPrevGuid := g_afkPrevGuid g;
     g_afkApplied := v |}.

Definition set_os_active (v : option GUID) (h : Host) : Host :=
  {| os_active := v;
     os_accepts := os_accepts h;
     os_schemes := os_schemes h;
     os_last_input := os_last_input h;
     os_tick_count := os_tick_count h;
     os_registry := os_registry h;
     os_window_ok := os_window_ok h;
     os_startup := os_startup h;
     res_tooltip_default := res_tooltip_default h |}.

Definition set_os_accepts (v : GUID -> bool) (h : Host) : Host :=
  {| os_active := os_active h;
     os_accepts := v;
     os_schemes := os_schemes h;
     os_last_input := os_last_input h;
     os_tick_count := os_tick_count h;
     os_registry := os_registry h;
     os_window_ok := os_window_ok h;
     os_startup := os_startup h;
     res_tooltip_default := res_tooltip_default h |}.

Definition set_os_registry (v : Registry) (h : Host) : Host :=
  {| os_active := os_active h;
     os_accepts := os_accepts h;
     os_schemes := os_schemes h;
     os_last_input := os_last_input h;
     os_tick_count := os_tick_count h;
     os_registry := v;
     os_window_ok := os_window_ok h;
     os_startup := os_startup h;
     res_tooltip_default := res_tooltip_default h |}.

Definition set_os_startup (v : bool) (h : Host) : Host :=
  {| os_active := os_active h;
     os_accepts := os_accepts h;
     os_schemes := os_schemes h;
     os_last_input := os_last_input h;
     os_tick_count := os_tick_count h;
     os_registry := os_registry h;
     os_window_ok := os_window_ok h;
     os_startup := v;
     res_tooltip_default := res_tooltip_default h |}.

(** ** The monad of handlers *)

Definition M (A : Type) : Type := Sys -> A * Sys.

Definition ret {A} (a : A) : M A := fun s => (a, s).

Definition bind {A B} (m : M A) (k : A -> M B) : M B :=
  fun s => let (a, s') := m s in k a s'.

Definition exec {A} (m : M A) (s : Sys) : Sys := snd (m s).
Definition eval {A} (m : M A) (s : Sys) : A := fst (m s).

Declare Scope prog_scope.
Delimit Scope prog_scope with prog.
Notation "x <- m ;; k" := (bind m (fun x => k))
  (at level 100, m at next level, k at level 200, right associativity)
  : prog_scope.
Notation "m ;;; k" := (bind m (fun _ => k))
  (at level 100, k at level 200, right associativity) : prog_scope.
Local Open Scope prog_scope.

Definition read {A} (f : Globals -> A) : M A := fun s => (f (globals s), s).

Definition assign (upd : Globals -> Globals) : M unit :=
  fun s => (tt, with_globals (upd (globals s)) s).

Definition ask {A} (f : Host -> A) : M A := fun s => (f (host s), s).

Definition alter_host (upd : Host -> Host) : M unit :=
  fun s => (tt, {| globals := globals s; host := upd (host s); trace := trace s |}).

Definition call (c : Call) : M unit :=
  fun s => (tt, {| globals := globals s; host := host s; trace := trace s ++ [c] |}).

Definition when (b : bool) (m : M unit) : M unit := if b then m else ret tt.

(** ** Host calls

    The Win32 and PowrProf entry points the engine uses, over [Host]. *)

(** [bool GetActivePlanGuid(GUID& outGuid)]: [outGuid] is written only on
    success; the pair is the result and the caller's variable afterwards. *)
Definition GetActivePlanGuid (outGuid : GUID) : M (bool * GUID) :=
  r <- ask os_active ;;
  match r with
  | Some g => ret (true, g)
  | None => ret (false, outGuid)
  end.

(** [bool SetActivePlan(const GUID& guid)]. *)
Definition SetActivePlan (g : GUID) : M bool :=
  ok <- ask (fun h => os_accepts h g) ;;
  when ok (alter_host (set_os_active (Some g))) ;;;
  call (PowerSetActiveScheme g ok) ;;;
  ret ok.

(** [EnumeratePlans]: a scheme whose friendly name cannot be read is
    skipped ([continue]). *)
Definition EnumeratePlans (h : Host) : list PlanItem :=
  omap (fun p : GUID * option string =>
          match snd p with
          | Some nm => Some (mkPlanItem (fst p) nm)
          | None => None
          end) (os_schemes h).

(** [StringCchCopy(dst, cch, src)] keeps at most [cch - 1] characters. *)
Definition StringCchCopy (cch : nat) (src : string) : string :=
  String.substring 0 (cch - 1) src.

Definition szTip_size : nat := 128.

Definition plan_name (items : list PlanItem) (active : GUID) (dflt : string) : string :=
  match List.find (fun it => IsEqualGUID (guid it) active) items with
  | Some it => name it
  | None => dflt
  end.

(** [UpdateTrayTooltip]: the local [active] is read only after a successful
    [GetActivePlanGuid]; its indeterminate initial value is immaterial. *)
Definition UpdateTrayTooltip : M unit :=
  tip <- ask res_tooltip_default ;;
  r <- GetActivePlanGuid GUID_NULL ;;
  tip <- (if fst r
          then items <- ask EnumeratePlans ;; ret (plan_name items (snd r) tip)
          else ret tip) ;;
  call (Shell_NotifyIcon_MODIFY (StringCchCopy szTip_size tip)).

Definition AddOrUpdateTrayIcon : M unit :=
  tip <- ask res_tooltip_default ;;
  call (Shell_NotifyIcon_ADD (StringCchCopy szTip_size tip)).

Definition RemoveTrayIcon : M unit := call Shell_NotifyIcon_DELETE.

Definition ShowTrayMenu : M unit :=
  plans <- ask EnumeratePlans ;;
  call (TrackPopupMenu plans).

(** [DWORD GetIdleSeconds()]: a function of the host's input clock. *)
Definition GetIdleSeconds (h : Host) : Z :=
  match os_last_input h with
  | None => 0
  | Some dwTime =>
      let now := os_tick_count h in
      let then_ := dwTime in
      if now <? then_ then 0 (* extremely unlikely with GetTickCount64 *)
      else let diff := now - then_ in Mach.to_DWORD (diff / 1000)
  end.

(** *** Registry *)

(** [RegOpenKeyExW(HKEY_CURRENT_USER, kAfkRegPath, 0, KEY_QUERY_VALUE, &hKey)]:
    the opened key is represented by its values. *)
Definition RegOpenKeyExW : M (option (gmap string RegValue)) :=
  r <- ask os_registry ;;
  ret (if reg_query_ok r then reg_key r else None).

(** [RegGetValueW(hKey, nullptr, valueName, RRF_RT_<ty>, nullptr, buf, &size)]
    with [size] the length of [buf] on entry: the call fails when the value
    is missing, of another type, or longer than the buffer; otherwise the
    data overwrites the head of the buffer and [size] becomes its length. *)
Definition RegGetValueW (hKey : gmap string RegValue) (valueName : string)
    (ty : RegType) (buf : list byte) : option (list byte * Z) :=
  match hKey !! valueName with
  | Some v =>
      if RegType_eqb (rv_type v) ty
         && (Z.of_nat (length (rv_data v)) <=? Z.of_nat (length buf))
      then Some (rv_data v ++ drop (length (rv_data v)) buf,
                 Z.of_nat (length (rv_data v)))
      else None
  | None => None
  end.

(** [RegCreateKeyExW(HKEY_CURRENT_USER, kAfkRegPath, ..., KEY_SET_VALUE, ...)]:
    creates the key when it does not exist. *)
Definition RegCreateKeyExW : M bool :=
  r <- ask os_registry ;;
  if reg_set_ok r
  then alter_host (set_os_registry
         {| reg_key := Some (match reg_key r with Some k => k | None => ∅ end);
            reg_query_ok := reg_query_ok r;
            reg_set_ok := reg_set_ok r |}) ;;;
       ret true
  else ret false.

(** [RegSetValueExW(hKey, valueName, 0, ty, data, cb)] on a key opened for
    writing. *)
Definition RegSetValueExW (valueName : string) (ty : RegType) (data : list byte)
    : M unit :=
  alter_host (fun h =>
    let r := os_registry h in
    set_os_registry
      {| reg_key := match reg_key r with
                    | Some k => Some (<[valueName := mkRegValue ty data]> k)
                    | None => None
                    end;
         reg_query_ok := reg_query_ok r;
         reg_set_ok := reg_set_ok r |} h).

(** ** The program *)

Definition ID_BASE_PLAN : Z := 10000.
Definition IDM_STARTUP : Z := 40001.
Definition IDM_REFRESH : Z := 40002.
Definition IDM_AFK_OFF : Z := 40100.
Definition IDM_AFK_INTERVAL_BASE : Z := 40200.
Definition IDM_AFK_TARGET_BASE : Z := 40300.
Definition TIMER_EVENT_POLL_ACTIVE : Z := 1.
Definition TIMER_EVENT_AFK_CHECK : Z := 2.

Definition zero_bytes (n : nat) : list byte := repeat x00 n.

(** [AfkLoadSettings]. *)
Definition AfkLoadSettings : M unit :=
  k <- RegOpenKeyExW ;;
  match k with
  | Some hKey =>
      (let dw := zero_bytes 4 in
       match RegGetValueW hKey "AfkTimeoutMinutes" REG_DWORD dw with
       | Some (dw, _) =>
           assign (set_afkTimeoutMinutes (Mach.to_int (Mach.le_decode dw)))
       | None => ret tt
       end) ;;;
      (let g := guid_bytes GUID_NULL in
       match RegGetValueW hKey "AfkTargetPlan" REG_BINARY g with
       | Some (g, size) =>
           if size =? sizeof_GUID
           then match guid_of_bytes g with
                | Some g => assign (set_afkTargetGuid g)
                | None => ret tt
                end
           else ret tt
       | None => ret tt
       end)
  | None => ret tt
  end.

(** [AfkSaveSettings]. *)
Definition AfkSaveSettings : M unit :=
  ok <- RegCreateKeyExW ;;
  when ok
    (t <- read g_afkTimeoutMinutes ;;
     let dw := Mach.to_DWORD t in
     RegSetValueExW "AfkTimeoutMinutes" REG_DWORD (Mach.le_encode 4 dw) ;;;
     target <- read g_afkTargetGuid ;;
     RegSetValueExW "AfkTargetPlan" REG_BINARY (guid_bytes target)).

(** The threshold of a tick: [(DWORD)g_afkTimeoutMinutes * 60U]. *)
Definition threshold (timeoutMinutes : Z) : Z :=
  Mach.to_DWORD (Mach.to_DWORD timeoutMinutes * 60).

(** [AfkCheckTick]. *)
Definition AfkCheckTick : M unit :=
  t <- read g_afkTimeoutMinutes ;;
  if t <=? 0 then ret tt (* feature disabled *)
  else
    idle <- ask GetIdleSeconds ;;
    let thr := threshold t in
    if thr <=? idle then
      applied <- read g_afkApplied ;;
      when (negb applied)
        (r <- GetActivePlanGuid GUID_NULL ;;
         let cur := snd r in
         (if fst r then assign (set_afkPrevGuid cur)
          else assign (set_afkPrevGuid GUID_NULL)) ;;;
         target <- read g_afkTargetGuid ;;
         when (negb (IsEqualGUID cur target) && negb (IsEqualGUID target GUID_NULL))
           (SetActivePlan target ;;;
            assign (set_lastActiveGuid target) ;;;
            UpdateTrayTooltip) ;;;
         assign (set_afkApplied true))
    else
      applied <- read g_afkApplied ;;
      when applied
        (r <- GetActivePlanGuid GUID_NULL ;;
         let cur := snd r in
         prev <- read g_afkPrevGuid ;;
         when (negb (IsEqualGUID cur prev) && negb (IsEqualGUID prev GUID_NULL))
           (SetActivePlan prev ;;;
            assign (set_lastActiveGuid prev) ;;;
            UpdateTrayTooltip) ;;;
         assign (set_afkApplied false)).

(** [CreateHiddenWindow]. *)
Definition CreateHiddenWindow : M bool :=
  ok <- ask os_window_ok ;;
  if negb ok then ret false
  else
    AddOrUpdateTrayIcon ;;;
    UpdateTrayTooltip ;;;
    (* Initialize last known scheme *)
    last <- read g_lastActiveGuid ;;
    r <- GetActivePlanGuid last ;;
    assign (set_lastActiveGuid (snd r)) ;;;
    call RegisterPowerSettingNotification ;;;
    call (SetTimer TIMER_EVENT_POLL_ACTIVE 2000) ;;;
    (* Load AFK settings and start AFK timer *)
    AfkLoadSettings ;;;
    target <- read g_afkTargetGuid ;;
    when (IsEqualGUID target GUID_NULL)
      (r <- GetActivePlanGuid GUID_NULL ;;
       when (fst r) (assign (set_afkTargetGuid (snd r)))) ;;;
    call (SetTimer TIMER_EVENT_AFK_CHECK 1000) ;;;
    ret true.

(** *** The window procedure

    Icon handles, the power-notification handle and the instance mutex
    carry no state of the engine and are left out; the calls made for them
    appear in the trace only where a handler has nothing else to show. *)

(** [WM_COMMAND], [IDM_AFK_OFF]: disable AFK switching; if currently
    applied, revert now. *)
Definition OnAfkOff : M unit :=
  assign (set_afkTimeoutMinutes 0) ;;;
  applied <- read g_afkApplied ;;
  when applied
    (r <- GetActivePlanGuid GUID_NULL ;;
     let cur := snd r in
     prev <- read g_afkPrevGuid ;;
     when (negb (IsEqualGUID cur prev) && negb (IsEqualGUID prev GUID_NULL))
       (SetActivePlan prev ;;;
        assign (set_lastActiveGuid prev)) ;;;
     assign (set_afkApplied false) ;;;
     UpdateTrayTooltip) ;;;
  AfkSaveSettings.

Definition intervals : list Z := [1; 5; 10; 15; 30; 45; 60].

(** [WM_COMMAND], [IDM_AFK_INTERVAL_BASE + idx]. *)
Definition OnAfkInterval (cmd : Z) : M unit :=
  let idx := cmd - IDM_AFK_INTERVAL_BASE in
  if (0 <=? idx) && (idx <? 7)
  then match intervals !! Z.to_nat idx with
       | Some m => assign (set_afkTimeoutMinutes m) ;;; AfkSaveSettings
       | None => ret tt
       end
  else ret tt.

(** [WM_COMMAND], [IDM_AFK_TARGET_BASE + index]. *)
Definition OnAfkTarget (cmd : Z) : M unit :=
  let index := Mach.to_DWORD (cmd - IDM_AFK_TARGET_BASE) in
  plans <- ask EnumeratePlans ;;
  match plans !! Z.to_nat index with
  | Some p => assign (set_afkTargetGuid (guid p)) ;;; AfkSaveSettings
  | None => ret tt
  end.

(** [WM_COMMAND], [ID_BASE_PLAN + index]: the user picks a plan. *)
Definition OnSelectPlan (cmd : Z) : M unit :=
  let index := Mach.to_DWORD (cmd - ID_BASE_PLAN) in
  plans <- ask EnumeratePlans ;;
  match plans !! Z.to_nat index with
  | Some p => SetActivePlan (guid p) ;;; UpdateTrayTooltip
  | None => ret tt
  end.

(** [WM_COMMAND], [IDM_STARTUP]. *)
Definition OnStartup : M unit :=
  now <- ask os_startup ;;
  alter_host (set_os_startup (negb now)) ;;;
  call (SetStartupEnabled (negb now)).

(** [WM_POWERBROADCAST] with [PBT_POWERSETTINGCHANGE]: power scheme likely
    changed; refresh tooltip. *)
Definition OnPowerSettingChange : M unit := UpdateTrayTooltip.

(** [WM_TIMER] with [TIMER_EVENT_POLL_ACTIVE]. *)
Definition OnPollActive : M unit :=
  r <- GetActivePlanGuid GUID_NULL ;;
  let now := snd r in
  last <- read g_lastActiveGuid ;;
  when (fst r && negb (IsEqualGUID now last))
    (assign (set_lastActiveGuid now) ;;;
     UpdateTrayTooltip).

Definition LOWORD (x : Z) : Z := x mod 65536.

Definition WM_RBUTTONUP : Z := 517.            (* 0x0205 *)
Definition WM_CONTEXTMENU : Z := 123.          (* 0x007B *)
Definition PBT_POWERSETTINGCHANGE : Z := 32787. (* 0x8013 *)

Inductive Message : Type :=
| TaskbarCreated                (* message == g_uTaskbarCreated *)
| WM_CREATE
| WM_COMMAND (wParam : Z)
| WM_TRAYICON (lParam : Z)
| WM_POWERBROADCAST (wParam : Z)
| WM_DPICHANGED
| WM_TIMER (wParam : Z)
| WM_DESTROY
| WM_other.

Section WindowProcedure.

(** [IDM_EXIT] comes from the resource header, which is not part of the
    source at hand. *)
Variable IDM_EXIT : Z.

Definition DefWindowProc_ : M Z := call DefWindowProc ;;; ret 0.

Definition WndProc (message : Message) : M Z :=
  match message with
  | TaskbarCreated => AddOrUpdateTrayIcon ;;; UpdateTrayTooltip ;;; ret 0
  | WM_CREATE => ret 0
  | WM_COMMAND wParam =>
      let cmd := LOWORD wParam in
      if cmd =? IDM_EXIT then call DestroyWindow ;;; ret 0
      else if cmd =? IDM_REFRESH then UpdateTrayTooltip ;;; ret 0
      else if cmd =? IDM_STARTUP then OnStartup ;;; ret 0
      else if cmd =? IDM_AFK_OFF then OnAfkOff ;;; ret 0
      else if (IDM_AFK_INTERVAL_BASE <=? cmd) && (cmd <? IDM_AFK_INTERVAL_BASE + 100)
      then OnAfkInterval cmd ;;; ret 0
      else if (IDM_AFK_TARGET_BASE <=? cmd) && (cmd <? IDM_AFK_TARGET_BASE + 10000)
      then OnAfkTarget cmd ;;; ret 0
      else if (ID_BASE_PLAN <=? cmd) && (cmd <? ID_BASE_PLAN + 10000)
      then OnSelectPlan cmd ;;; ret 0
      else DefWindowProc_
  | WM_TRAYICON lParam =>
      if (LOWORD lParam =? WM_RBUTTONUP) || (LOWORD lParam =? WM_CONTEXTMENU)
      then ShowTrayMenu ;;; ret 0
      else DefWindowProc_
  | WM_POWERBROADCAST wParam =>
      if wParam =? PBT_POWERSETTINGCHANGE
      then OnPowerSettingChange ;;; ret 1
      else DefWindowProc_
  | WM_DPICHANGED =>
      RemoveTrayIcon ;;; AddOrUpdateTrayIcon ;;; UpdateTrayTooltip ;;; ret 0
  | WM_TIMER wParam =>
      if wParam =? TIMER_EVENT_POLL_ACTIVE then OnPollActive ;;; ret 0
      else if wParam =? TIMER_EVENT_AFK_CHECK then AfkCheckTick ;;; ret 0
      else DefWindowProc_
  | WM_DESTROY =>
      call (KillTimer 1) ;;; call (KillTimer 2) ;;; RemoveTrayIcon ;;;
      call PostQuitMessage ;;; ret 0
  | WM_other => DefWindowProc_
  end.

End WindowProcedure.

(** ** Runs *)

(** A sequence of AFK ticks: before each tick the host is what the
    environment has made of it. *)
Fixpoint run_ticks (hs : list Host) (s : Sys) : Sys :=
  match hs with
  | [] => s
  | h :: hs' => run_ticks hs' (exec AfkCheckTick (with_host h s))
  end.

(** The schemes the program asked the host to activate, oldest first. *)
Fixpoint activations (t : list Call) : list GUID :=
  match t with
  | [] => []
  | PowerSetActiveScheme g _ :: t' => g :: activations t'
  | _ :: t' => activations t'
  end.

(** The plan a handler holds in its local [cur] after
    [GUID cur{}; GetActivePlanGuid(cur);]. *)
Definition cur_plan (h : Host) : GUID :=
  match os_active h with
  | Some g => g
  | None => GUID_NULL
  end.

(** ** Sample plans, hosts and states *)

Module Sample.

(** Balanced, 381b4222-f694-41f0-9685-ff5bb260df2e. *)
Definition PlanA : GUID :=
  Guid x22 x42 x1b x38 x94 xf6 xf0 x41 x96 x85 xff x5b xb2 x60 xdf x2e.

(** High performance, 8c5e7fda-e8bf-4a96-9a85-a6e23a8c635c. *)
Definition PlanB : GUID :=
  Guid xda x7f x5e x8c xbf xe8 x96 x4a x9a x85 xa6 xe2 x3a x8c x63 x5c.

Definition no_key : Registry :=
  {| reg_key := None; reg_query_ok := true; reg_set_ok := true |}.

(** A host whose last input was [idle] seconds ago. *)
Definition a_host (active : option GUID) (idle : Z) (accepts : bool)
    (reg : Registry) : Host :=
  {| os_active := active;
     os_accepts := fun _ => accepts;
     os_schemes := [(PlanA, Some "Balanced"); (PlanB, Some "High performance")];
     os_last_input := Some 5000;
     os_tick_count := 5000 + idle * 1000;
     os_registry := reg;
     os_window_ok := true;
     os_startup := false;
     res_tooltip_default := "Power plan" |}.

Definition a_sys (timeoutMinutes : Z) (target prev : GUID) (applied : bool)
    (h : Host) : Sys :=
  {| globals := {| g_lastActiveGuid := cur_plan h;
                   g_afkTimeoutMinutes := timeoutMinutes;
                   g_afkTargetGuid := target;
                   g_afkPrevGuid := prev;
                   g_afkApplied := applied |};
     host := h;
     trace := [] |}.

(** Scenario A: timeout 5, idle 301 s, [PlanA] active, target [PlanB]. *)
Definition scenario_A (accepts : bool) : Sys :=
  a_sys 5 PlanB GUID_NULL false (a_host (Some PlanA) 301 accepts no_key).

(** Scenario B: applied with [PlanA] saved, [PlanB] active, idle 100 s. *)
Definition scenario_B : Sys :=
  a_sys 5 PlanB PlanA true (a_host (Some PlanB) 100 true no_key).

(** Scenario C: timeout 10, target unset, idle 700 s. *)
Definition scenario_C : Sys :=
  a_sys 10 GUID_NULL GUID_NULL false (a_host (Some PlanA) 700 true no_key).

(** Another application has switched from [PlanA] to [PlanB]. *)
Definition plan_changed : Sys :=
  {| globals := {| g_lastActiveGuid := PlanA;
                   g_afkTimeoutMinutes := 0;
                   g_afkTargetGuid := PlanB;
                   g_afkPrevGuid := GUID_NULL;
                   g_afkApplied := false |};
     host := a_host (Some PlanB) 0 true no_key;
     trace := [] |}.

(** Nothing has changed: [PlanA] is active and known to be. *)
Definition in_sync : Sys :=
  a_sys 0 PlanB GUID_NULL false (a_host (Some PlanA) 0 true no_key).

(** [IDM_EXIT] as the Visual Studio application template defines it. *)
Definition IDM_EXIT : Z := 105.

(** A key as [AfkSaveSettings] leaves it for timeout 15 and target
    [PlanB], beside a value of another program version. *)
Definition a_key : Registry :=
  {| reg_key := Some (<["AfkTimeoutMinutes" := mkRegValue REG_DWORD [x0f; x00; x00; x00]]>
                     (<["AfkTargetPlan" := mkRegValue REG_BINARY (guid_bytes PlanB)]>
                     (<["Language" := mkRegValue REG_SZ [x65; x00; x6e; x00; x00; x00]]> ∅)));
     reg_query_ok := true;
     reg_set_ok := true |}.

End Sample.

(** ** The tracker as the specification words it *)

Module Spec.

(** Follows the specification (4.2, 6): [PlanRegistry.getActive() -> id or
    failure]. *)
Definition getActive : M (option GUID) := ask os_active.

(** The external refresh collaborator (tooltip/UI refresh). *)
Definition signal_refresh : M unit := UpdateTrayTooltip.

(** Follows the specification (4.2): "reads the current active plan from
    PlanRegistry and compares it to [lastKnownActivePlanId]; on mismatch,
    updates the stored value and signals the external refresh
    collaborator." *)
Definition reconcile : M unit :=
  r <- getActive ;;
  match r with
  | Some current =>
      lastKnownActivePlanId <- read g_lastActiveGuid ;;
      if IsEqualGUID current lastKnownActivePlanId then ret tt
      else assign (set_lastActiveGuid current) ;;; signal_refresh
  | None => ret tt
  end.

End Spec.

(** ** Host calls in closed form *)

(** The tip [UpdateTrayTooltip] puts on the tray icon. *)
Definition tray_tip (h : Host) : string :=
  StringCchCopy szTip_size
    (match os_active h with
     | Some active => plan_name (EnumeratePlans h) active
                        (res_tooltip_default h)
     | None => res_tooltip_default h
     end).

Definition logged (c : Call) (s : Sys) : Sys :=
  {| globals := globals s; host := host s; trace := trace s ++ [c] |}.

(** The host after [PowerSetActiveScheme] was asked for [g]. *)
Definition activated (g : GUID) (h : Host) : Host :=
  if os_accepts h g then set_os_active (Some g) h else h.

(** The test of both [SetActivePlan] sites: the plan read into [cur]
    differs from the plan [g] to activate, and [g] is set. *)
Definition fires (cur g : GUID) : bool :=
  negb (IsEqualGUID cur g) && negb (IsEqualGUID g GUID_NULL).

(** ** The settings store in closed form *)

Definition key_values (r : Registry) : gmap string RegValue :=
  match reg_key r with
  | Some k => k
  | None => ∅
  end.

(** The registry after [AfkSaveSettings] has run with globals [g]. *)
Definition saved (g : Globals) (r : Registry) : Registry :=
  if reg_set_ok r
  then {| reg_key :=
            Some (<["AfkTargetPlan" :=
                      mkRegValue REG_BINARY (guid_bytes (g_afkTargetGuid g))]>
                    (<["AfkTimeoutMinutes" :=
                         mkRegValue REG_DWORD
                           (Mach.le_encode 4 (Mach.to_DWORD (g_afkTimeoutMinutes g)))]>
                       (key_values r)));
          reg_query_ok := reg_query_ok r;
          reg_set_ok := reg_set_ok r |}
  else r.

(** The key [AfkLoadSettings] reads from, when it can. *)
Definition readable_key (r : Registry) : option (gmap string RegValue) :=
  if reg_query_ok r then reg_key r else None.

(** What [AfkLoadSettings] leaves in [g_afkTimeoutMinutes], given its
    value [dflt] before. *)
Definition load_timeout (r : Registry) (dflt : Z) : Z :=
  match readable_key r with
  | Some hKey =>
      match RegGetValueW hKey "AfkTimeoutMinutes" REG_DWORD (zero_bytes 4) with
      | Some (dw, _) => Mach.to_int (Mach.le_decode dw)
      | None => dflt
      end
  | None => dflt
  end.

(** What [AfkLoadSettings] leaves in [g_afkTargetGuid]. *)
Definition load_target (r : Registry) (dflt : GUID) : GUID :=
  match readable_key r with
  | Some hKey =>
      match RegGetValueW hKey "AfkTargetPlan" REG_BINARY (guid_bytes GUID_NULL) with
      | Some (g, size) =>
          if size =? sizeof_GUID
          then match guid_of_bytes g with
               | Some g => g
               | None => dflt
               end
          else dflt
      | None => dflt
      end
  | None => dflt
  end.

(** A registry that holds a persisted [AfkConfig]: the key is there and
    accessible, [AfkTimeoutMinutes] is a [REG_DWORD] of four bytes and
    [AfkTargetPlan] a [REG_BINARY] of sixteen. *)
Definition persisted_config (r : Registry) : Prop :=
  reg_query_ok r = true /\ reg_set_ok r = true /\
  exists k dw g,
    reg_key r = Some k /\
    k !! "AfkTimeoutMinutes" = Some (mkRegValue REG_DWORD dw) /\
    length dw = 4%nat /\
    k !! "AfkTargetPlan" = Some (mkRegValue REG_BINARY g) /\
    length g = 16%nat.

(** ** The states of a run of the program *)

(** The program starts with [CreateHiddenWindow] on the initial globals;
    then the message loop hands messages to [WndProc], while the host
    changes under it. *)
Inductive reachable (IDM_EXIT : Z) : Sys -> Prop :=
| reach_startup (h : Host) :
    eval CreateHiddenWindow (initial h) = true ->
    reachable IDM_EXIT (exec CreateHiddenWindow (initial h))
| reach_message (s : Sys) (m : Message) :
    reachable IDM_EXIT s ->
    reachable IDM_EXIT (exec (WndProc IDM_EXIT m) s)
| reach_host (s : Sys) (h : Host) :
    reachable IDM_EXIT s ->
    reachable IDM_EXIT (with_host h s).

(** The engine is applied only while the feature is enabled. *)
Definition applied_implies_enabled (s : Sys) : Prop :=
  g_afkApplied (globals s) = true -> 0 < g_afkTimeoutMinutes (globals s).

(** ** The tray menu

    What [ShowTrayMenu] appends to the menu: for each item the flags, the
    command id and the text of its [AppendMenu] call. The texts of the
    timeout entries are resource strings; they are taken as given. *)

Definition MF_STRING : Z := 0.
Definition MF_CHECKED : Z := 8.

Record MenuItem : Type := mkMenuItem {
  mi_flags : Z;
  mi_id : Z;
  mi_text : string
}.

Definition is_checked (it : MenuItem) : bool := Z.testbit (mi_flags it) 3.




(** [const int intervals[7]] of [ShowTrayMenu]. *)
Definition menu_intervals : list Z := [1; 5; 10; 15; 30; 45; 60].

(** Timeout options: "Off", then the seven intervals. *)
Definition timeout_entries (sAfkOff : string) (intervalLabel : nat -> string)
    (g : Globals) : list MenuItem :=
  mkMenuItem (Z.lor MF_STRING (if g_afkTimeoutMinutes g =? 0 then MF_CHECKED else 0))
    IDM_AFK_OFF sAfkOff ::
  map (fun i =>
         let flags := MF_STRING in
         let flags := if g_afkTimeoutMinutes g =? nth i menu_intervals 0
                      then Z.lor flags MF_CHECKED else flags in
         mkMenuItem flags (IDM_AFK_INTERVAL_BASE + Z.of_nat i) (intervalLabel i))
      (seq 0 7).

(** ** More sample inputs *)

Module Cases.

(** The host of scenario A once the engine has switched it to [PlanB] and
    input has resumed (idle 100 s). *)
Definition recovered_host : Host :=
  Sample.a_host (Some Sample.PlanB) 100 true Sample.no_key.

(** Applied on [PlanA] with [PlanA] the target: nothing was switched. *)
Definition on_target : Sys :=
  Sample.a_sys 5 Sample.PlanA GUID_NULL false
    (Sample.a_host (Some Sample.PlanA) 301 true Sample.no_key).

(** A first launch over the sample key, then a tick after 16 idle minutes. *)
Definition launched : Sys :=
  exec CreateHiddenWindow
    (initial (Sample.a_host (Some Sample.PlanA) 0 true Sample.a_key)).

Definition idle_16_minutes : Host :=
  Sample.a_host (Some Sample.PlanA) 960 true Sample.a_key.

Definition launched_then_idle : Sys :=
  exec (WndProc Sample.IDM_EXIT (WM_TIMER TIMER_EVENT_AFK_CHECK))
    (with_host idle_16_minutes launched).

(** Inactive, 15 minutes, target [PlanB], over the sample key. *)
Definition configured : Sys :=
  Sample.a_sys 15 Sample.PlanB GUID_NULL false
    (Sample.a_host (Some Sample.PlanA) 0 true Sample.a_key).

(** A key whose target is truncated to eight bytes. *)
Definition short_target_key : Registry :=
  {| reg_key := Some (<["AfkTimeoutMinutes" := mkRegValue REG_DWORD [x1e; x00; x00; x00]]>
                     (<["AfkTargetPlan" := mkRegValue REG_BINARY
                          [xda; x7f; x5e; x8c; xbf; xe8; x96; x4a]]> ∅));
     reg_query_ok := true;
     reg_set_ok := true |}.

(** A key whose timeout has its top bit set (0x80000005). *)
Definition high_timeout_key : Registry :=
  {| reg_key := Some (<["AfkTimeoutMinutes" := mkRegValue REG_DWORD [x05; x00; x00; x80]]>
                     (<["AfkTargetPlan" := mkRegValue REG_BINARY (guid_bytes Sample.PlanB)]> ∅));
     reg_query_ok := true;
     reg_set_ok := true |}.

(** A key that cannot be opened. *)
Definition locked_key : Registry :=
  {| reg_key := reg_key Sample.a_key; reg_query_ok := false; reg_set_ok := false |}.

(** 50 days of uptime; the last input, 2 s ago, carries a 32-bit stamp. *)
Definition long_uptime : Host :=
  {| os_active := Some Sample.PlanA;
     os_accepts := fun _ => true;
     os_schemes := [(Sample.PlanA, Some "Balanced")];
     os_last_input := Some (4320000000 - 2000 - 4294967296);
     os_tick_count := 4320000000;
     os_registry := Sample.no_key;
     os_window_ok := true;
     os_startup := false;
     res_tooltip_default := "Power plan" |}.

End Cases.

(** ** The disabled tick as the specification words it *)

Module SpecEngine.



End SpecEngine.

(** ** Sample runs *)

Module Runs.

(** Launched over the sample key, applied after 16 idle minutes, then
    "Off" picked in the menu. *)
Definition switched_off : Sys :=
  exec (WndProc Sample.IDM_EXIT (WM_COMMAND IDM_AFK_OFF))
    (with_host (Sample.a_host (Some Sample.PlanB) 0 true Sample.a_key)
       Cases.launched_then_idle).

(** A key whose timeout is 71582789 minutes (0x04444445), target [PlanB]. *)
Definition wrap_key : Registry :=
  {| reg_key := Some (<["AfkTimeoutMinutes" := mkRegValue REG_DWORD [x45; x44; x44; x04]]>
                     (<["AfkTargetPlan" := mkRegValue REG_BINARY (guid_bytes Sample.PlanB)]> ∅));
     reg_query_ok := true;
     reg_set_ok := true |}.

(** Launched over [wrap_key] with [PlanA] active; a tick after 60 idle
    seconds; then, with [PlanB] active, 51 s after the last input. *)
Definition wrap_launched : Sys :=
  exec CreateHiddenWindow
    (initial (Sample.a_host (Some Sample.PlanA) 0 true wrap_key)).

Definition wrap_forced : Sys :=
  exec (WndProc Sample.IDM_EXIT (WM_TIMER TIMER_EVENT_AFK_CHECK))
    (with_host (Sample.a_host (Some Sample.PlanA) 60 true wrap_key) wrap_launched).

Definition wrap_recovering : Sys :=
  with_host (Sample.a_host (Some Sample.PlanB) 51 true wrap_key) wrap_forced.

End Runs.

(** * Properties *)

(** ** Bytes and GUIDs *)

Lemma byte_of_Z_of_byte (b : byte) : Mach.byte_of_Z (Mach.Z_of_byte b) = b.
Proof.
  unfold Mach.byte_of_Z, Mach.Z_of_byte.
  pose proof (Byte.to_N_bounded b) as Hb.
  rewrite Z.mod_small by lia.
  rewrite N2Z.id, Byte.of_to_N. reflexivity.
Qed.

Lemma Z_of_byte_range (b : byte) : 0 <= Mach.Z_of_byte b < 256.
Proof.
  unfold Mach.Z_of_byte. pose proof (Byte.to_N_bounded b). lia.
Qed.

Lemma le_decode_range (l : list byte) :
  0 <= Mach.le_decode l < 256 ^ Z.of_nat (length l).
Proof.
  induction l as [|b l IH]; simpl Mach.le_decode.
  - simpl. lia.
  - pose proof (Z_of_byte_range b) as Hb.
    rewrite length_cons, Nat2Z.inj_succ, Z.pow_succ_r by lia. lia.
Qed.

Lemma byte_of_Z_add (a k : Z) : Mach.byte_of_Z (a + 256 * k) = Mach.byte_of_Z a.
Proof.
  unfold Mach.byte_of_Z.
  rewrite (Z.mul_comm 256 k), Z.mod_add by lia. reflexivity.
Qed.

Lemma le_encode_decode (l : list byte) :
  Mach.le_encode (length l) (Mach.le_decode l) = l.
Proof.
  induction l as [|b l IH]; [reflexivity|].
  simpl Mach.le_decode. simpl Mach.le_encode.
  pose proof (Z_of_byte_range b) as Hb.
  f_equal.
  - rewrite byte_of_Z_add. apply byte_of_Z_of_byte.
  - replace ((Mach.Z_of_byte b + 256 * Mach.le_decode l) / 256)
      with (Mach.le_decode l); [exact IH|].
    rewrite Z.add_comm, Z.mul_comm, Z.div_add_l by lia.
    rewrite (Z.div_small (Mach.Z_of_byte b)) by lia. lia.
Qed.

Lemma to_DWORD_to_int (z : Z) : Mach.to_DWORD (Mach.to_int z) = Mach.to_DWORD z.
Proof.
  unfold Mach.to_DWORD, Mach.to_int, Mach.two32, Mach.two31.
  destruct (Z.ltb_spec (z mod 2 ^ 32) (2 ^ 31)).
  - apply Z.mod_mod. lia.
  - rewrite Zminus_mod, Z.mod_same, Z.sub_0_r, !Z.mod_mod by lia. reflexivity.
Qed.

Lemma to_int_range (z : Z) : Mach.is_int (Mach.to_int z).
Proof.
  unfold Mach.is_int, Mach.to_int, Mach.two32, Mach.two31.
  pose proof (Z.mod_pos_bound z (2 ^ 32) ltac:(lia)).
  destruct (Z.ltb_spec (z mod 2 ^ 32) (2 ^ 31)); lia.
Qed.

Lemma bytes_eqb_eq (a b : list byte) : Mach.bytes_eqb a b = true <-> a = b.
Proof.
  revert b. induction a as [|x a IH]; intros [|y b]; simpl; try easy.
  rewrite andb_true_iff, IH. split.
  - intros [Hxy ->]. apply Byte.byte_dec_bl in Hxy. now subst.
  - intros [= -> ->]. split; [apply Byte.byte_dec_lb|]; reflexivity.
Qed.

Lemma guid_bytes_inj (a b : GUID) : guid_bytes a = guid_bytes b -> a = b.
Proof. destruct a, b. simpl. intros [= -> -> -> -> -> -> -> -> -> -> -> -> -> -> -> ->]. reflexivity. Qed.

Lemma IsEqualGUID_true (a b : GUID) : IsEqualGUID a b = true <-> a = b.
Proof.
  unfold IsEqualGUID. rewrite bytes_eqb_eq. split.
  - apply guid_bytes_inj.
  - now intros ->.
Qed.

Lemma IsEqualGUID_false (a b : GUID) : IsEqualGUID a b = false <-> a <> b.
Proof.
  rewrite <- IsEqualGUID_true. destruct (IsEqualGUID a b); split; congruence.
Qed.

Lemma IsEqualGUID_refl (a : GUID) : IsEqualGUID a a = true.
Proof. now apply IsEqualGUID_true. Qed.

Lemma IsEqualGUID_sym (a b : GUID) : IsEqualGUID a b = IsEqualGUID b a.
Proof.
  destruct (IsEqualGUID b a) eqn:E.
  - apply IsEqualGUID_true in E. subst. apply IsEqualGUID_refl.
  - apply IsEqualGUID_false in E. apply IsEqualGUID_false. congruence.
Qed.

Lemma guid_of_bytes_guid_bytes (g : GUID) : guid_of_bytes (guid_bytes g) = Some g.
Proof. now destruct g. Qed.

Lemma guid_bytes_length (g : GUID) : length (guid_bytes g) = 16%nat.
Proof. now destruct g. Qed.

Lemma guid_of_bytes_length (l : list byte) :
  length l = 16%nat -> exists g, guid_of_bytes l = Some g /\ guid_bytes g = l.
Proof.
  intros H.
  do 16 (destruct l as [|? l]; [discriminate H|]).
  destruct l; [|discriminate H].
  eexists. split; reflexivity.
Qed.

(** ** Running handlers

    Handlers are run symbolically: [run] unfolds the monad and the handler
    at hand, replaces host calls by their effect ([SetActivePlan_run],
    [UpdateTrayTooltip_run]) and decides the tests the context settles. *)

Lemma UpdateTrayTooltip_run (s : Sys) :
  UpdateTrayTooltip s = (tt, logged (Shell_NotifyIcon_MODIFY (tray_tip (host s))) s).
Proof.
  unfold UpdateTrayTooltip, tray_tip, GetActivePlanGuid,
    bind, ask, ret, call, logged.
  destruct (os_active (host s)); reflexivity.
Qed.

Lemma SetActivePlan_run (g : GUID) (s : Sys) :
  SetActivePlan g s =
  (os_accepts (host s) g,
   {| globals := globals s;
      host := activated g (host s);
      trace := trace s ++ [PowerSetActiveScheme g (os_accepts (host s) g)] |}).
Proof.
  unfold SetActivePlan, activated, bind, ask, ret, call, when, alter_host.
  destruct (os_accepts (host s) g); destruct s; reflexivity.
Qed.

Lemma AfkSaveSettings_run (s : Sys) :
  AfkSaveSettings s =
  (tt, {| globals := globals s;
          host := set_os_registry (saved (globals s) (os_registry (host s))) (host s);
          trace := trace s |}).
Proof.
  destruct s as [g h tr]. destruct h as [act acc sch li tc r wok st tip].
  destruct r as [k q w].
  unfold AfkSaveSettings, RegCreateKeyExW, RegSetValueExW, saved, key_values,
    bind, ask, ret, read, when, alter_host, set_os_registry.
  simpl. destruct w; simpl; [|reflexivity].
  destruct k; reflexivity.
Qed.

Lemma AfkLoadSettings_run (s : Sys) :
  AfkLoadSettings s =
  (tt, with_globals
         (set_afkTargetGuid
            (load_target (os_registry (host s)) (g_afkTargetGuid (globals s)))
            (set_afkTimeoutMinutes
               (load_timeout (os_registry (host s)) (g_afkTimeoutMinutes (globals s)))
               (globals s))) s).
Proof.
  destruct s as [[last t target prev applied] h tr].
  unfold AfkLoadSettings, RegOpenKeyExW, load_target, load_timeout, readable_key,
    bind, ask, ret, assign, with_globals, set_afkTargetGuid, set_afkTimeoutMinutes.
  cbn [globals host trace g_lastActiveGuid g_afkTimeoutMinutes g_afkTargetGuid
       g_afkPrevGuid g_afkApplied].
  destruct (reg_query_ok (os_registry h)); [|reflexivity].
  destruct (reg_key (os_registry h)) as [hKey|]; [|reflexivity].
  destruct (RegGetValueW hKey "AfkTimeoutMinutes" REG_DWORD (zero_bytes 4))
    as [[dw sz]|];
    (destruct (RegGetValueW hKey "AfkTargetPlan" REG_BINARY (guid_bytes GUID_NULL))
      as [[g cb]|];
     [destruct (cb =? sizeof_GUID); [destruct (guid_of_bytes g)|]|]);
    reflexivity.
Qed.

Lemma activations_app (t1 t2 : list Call) :
  activations (t1 ++ t2) = activations t1 ++ activations t2.
Proof.
  induction t1 as [|c t1 IH]; [reflexivity|].
  destruct c; simpl; rewrite IH; reflexivity.
Qed.

Ltac unfold_prog :=
  cbv beta iota zeta delta
    [exec eval bind ret read assign ask alter_host call when logged
     with_globals with_host
     AfkCheckTick GetActivePlanGuid OnAfkOff OnPollActive OnPowerSettingChange
     OnAfkInterval OnAfkTarget OnSelectPlan OnStartup
     CreateHiddenWindow AddOrUpdateTrayIcon RemoveTrayIcon ShowTrayMenu
     DefWindowProc_
     set_lastActiveGuid set_afkTimeoutMinutes set_afkTargetGuid
     set_afkPrevGuid set_afkApplied
     g_lastActiveGuid g_afkTimeoutMinutes g_afkTargetGuid g_afkPrevGuid
     g_afkApplied
     fst snd globals host trace negb andb].

Ltac use_tests :=
  repeat match goal with
  | H : ?c = true |- context [?c] => rewrite H
  | H : ?c = false |- context [?c] => rewrite H
  | H : ?c = Some _ |- context [?c] => rewrite H
  | H : ?c = None |- context [?c] => rewrite H
  end.

Ltac run :=
  repeat (progress (unfold_prog;
                    rewrite ?SetActivePlan_run, ?UpdateTrayTooltip_run,
                      ?AfkSaveSettings_run, ?AfkLoadSettings_run;
                    use_tests)).

(** What [GUID cur{}; GetActivePlanGuid(cur);] leaves in [cur]. *)
Lemma GetActivePlanGuid_cur (s : Sys) :
  GetActivePlanGuid GUID_NULL s =
  (match os_active (host s) with Some _ => true | None => false end,
   cur_plan (host s), s).
Proof.
  unfold GetActivePlanGuid, cur_plan, bind, ask, ret.
  destruct (os_active (host s)); reflexivity.
Qed.

Lemma fires_true (cur g : GUID) : fires cur g = true <-> cur <> g /\ g <> GUID_NULL.
Proof.
  unfold fires. rewrite andb_true_iff, !negb_true_iff, !IsEqualGUID_false. tauto.
Qed.

Lemma fires_NULL (cur : GUID) : fires cur GUID_NULL = false.
Proof. unfold fires. rewrite (IsEqualGUID_refl GUID_NULL). apply andb_false_r. Qed.

Lemma fires_same (g : GUID) : fires g g = false.
Proof. unfold fires. now rewrite IsEqualGUID_refl. Qed.

(** *** The four outcomes of a tick *)

Lemma tick_disabled (s : Sys) :
  g_afkTimeoutMinutes (globals s) <= 0 -> AfkCheckTick s = (tt, s).
Proof.
  destruct s as [[last t target prev applied] h tr]. simpl.
  intros Ht. apply Z.leb_le in Ht. now run.
Qed.

Lemma tick_idle_forced (s : Sys) :
  0 < g_afkTimeoutMinutes (globals s) ->
  threshold (g_afkTimeoutMinutes (globals s)) <= GetIdleSeconds (host s) ->
  g_afkApplied (globals s) = true ->
  AfkCheckTick s = (tt, s).
Proof.
  destruct s as [[last t target prev applied] h tr]. simpl.
  intros Ht Hidle ->. apply Z.leb_gt in Ht. apply Z.leb_le in Hidle.
  now run.
Qed.

Lemma tick_active_inactive (s : Sys) :
  0 < g_afkTimeoutMinutes (globals s) ->
  GetIdleSeconds (host s) < threshold (g_afkTimeoutMinutes (globals s)) ->
  g_afkApplied (globals s) = false ->
  AfkCheckTick s = (tt, s).
Proof.
  destruct s as [[last t target prev applied] h tr]. simpl.
  intros Ht Hidle ->. apply Z.leb_gt in Ht. apply Z.leb_gt in Hidle.
  now run.
Qed.

(** Forcing: idle for the threshold or longer, not yet applied. *)
Lemma tick_force (s : Sys) :
  0 < g_afkTimeoutMinutes (globals s) ->
  threshold (g_afkTimeoutMinutes (globals s)) <= GetIdleSeconds (host s) ->
  g_afkApplied (globals s) = false ->
  let s' := exec AfkCheckTick s in
  let cur := cur_plan (host s) in
  let target := g_afkTargetGuid (globals s) in
  g_afkApplied (globals s') = true /\
  g_afkPrevGuid (globals s') = cur /\
  g_afkTargetGuid (globals s') = target /\
  g_afkTimeoutMinutes (globals s') = g_afkTimeoutMinutes (globals s) /\
  g_lastActiveGuid (globals s') =
    (if fires cur target then target else g_lastActiveGuid (globals s)) /\
  activations (trace s') =
    activations (trace s) ++ (if fires cur target then [target] else []) /\
  host s' = (if fires cur target then activated target (host s) else host s).
Proof.
  destruct s as [[last t target prev applied] h tr]. simpl.
  intros Ht Hidle ->. apply Z.leb_gt in Ht. apply Z.leb_le in Hidle.
  unfold exec, fires, cur_plan.
  destruct (os_active h) as [c|] eqn:Hact;
    [destruct (IsEqualGUID c target) eqn:E1
    |destruct (IsEqualGUID GUID_NULL target) eqn:E1];
    destruct (IsEqualGUID target GUID_NULL) eqn:E2; run;
    rewrite ?activations_app, ?app_nil_r; simpl; auto 10.
Qed.

(** Restoring: input within the threshold, applied. *)
Lemma tick_restore (s : Sys) :
  0 < g_afkTimeoutMinutes (globals s) ->
  GetIdleSeconds (host s) < threshold (g_afkTimeoutMinutes (globals s)) ->
  g_afkApplied (globals s) = true ->
  let s' := exec AfkCheckTick s in
  let cur := cur_plan (host s) in
  let prev := g_afkPrevGuid (globals s) in
  g_afkApplied (globals s') = false /\
  g_afkPrevGuid (globals s') = prev /\
  g_afkTargetGuid (globals s') = g_afkTargetGuid (globals s) /\
  g_afkTimeoutMinutes (globals s') = g_afkTimeoutMinutes (globals s) /\
  g_lastActiveGuid (globals s') =
    (if fires cur prev then prev else g_lastActiveGuid (globals s)) /\
  activations (trace s') =
    activations (trace s) ++ (if fires cur prev then [prev] else []) /\
  host s' = (if fires cur prev then activated prev (host s) else host s).
Proof.
  destruct s as [[last t target prev applied] h tr]. simpl.
  intros Ht Hidle ->. apply Z.leb_gt in Ht. apply Z.leb_gt in Hidle.
  unfold exec, fires, cur_plan.
  destruct (os_active h) as [c|] eqn:Hact;
    [destruct (IsEqualGUID c prev) eqn:E1
    |destruct (IsEqualGUID GUID_NULL prev) eqn:E1];
    destruct (IsEqualGUID prev GUID_NULL) eqn:E2; run;
    rewrite ?activations_app, ?app_nil_r; simpl; auto 10.
Qed.

(** ** The AFK engine *)


(** C10. On a tick with a positive timeout, idle time at or over the
    threshold and the engine not applied, [g_afkApplied] is set and
    [g_afkPrevGuid] captures the plan read (all-zero when the read fails),
    whatever the target; with the target unset no activation is requested. *)
Theorem forcing_tick_applies_unconditionally (s : Sys) :
  0 < g_afkTimeoutMinutes (globals s) ->
  threshold (g_afkTimeoutMinutes (globals s)) <= GetIdleSeconds (host s) ->
  g_afkApplied (globals s) = false ->
  let s' := exec AfkCheckTick s in
  g_afkApplied (globals s') = true /\
  g_afkPrevGuid (globals s') = cur_plan (host s) /\
  (g_afkTargetGuid (globals s) = GUID_NULL ->
   activations (trace s') = activations (trace s) /\
   g_lastActiveGuid (globals s') = g_lastActiveGuid (globals s) /\
   host s' = host s).
Proof.
  intros Ht Hidle Happ.
  destruct (tick_force s Ht Hidle Happ) as (Ha & Hp & _ & _ & Hl & Hc & Hh).
  repeat split; try assumption;
    rewrite H, fires_NULL in *; now rewrite ?app_nil_r in *.
Qed.

Lemma forcing_tick_applies_unconditionally_witness :
  let s' := exec AfkCheckTick Sample.scenario_C in
  g_afkApplied (globals s') = true /\
  g_afkPrevGuid (globals s') = Sample.PlanA /\
  (GUID_NULL = GUID_NULL ->
   activations (trace s') = [] /\
   g_lastActiveGuid (globals s') = Sample.PlanA /\
   host s' = host Sample.scenario_C).
Proof.
  apply (forcing_tick_applies_unconditionally Sample.scenario_C);
    vm_compute; congruence.
Defined.

Lemma Globals_eq (a b : Globals) :
  g_lastActiveGuid a = g_lastActiveGuid b ->
  g_afkTimeoutMinutes a = g_afkTimeoutMinutes b ->
  g_afkTargetGuid a = g_afkTargetGuid b ->
  g_afkPrevGuid a = g_afkPrevGuid b ->
  g_afkApplied a = g_afkApplied b ->
  a = b.
Proof. destruct a, b; simpl; congruence. Qed.

(** C4. A forcing tick whose [SetActivePlan] call fails still sets
    [g_afkApplied], records [g_afkPrevGuid] and moves [g_lastActiveGuid]
    to the target: the globals end up exactly as on a host that accepts
    the call, although the active plan of the host has not changed. *)
Theorem forcing_ignores_failed_activation (s : Sys) :
  0 < g_afkTimeoutMinutes (globals s) ->
  threshold (g_afkTimeoutMinutes (globals s)) <= GetIdleSeconds (host s) ->
  g_afkApplied (globals s) = false ->
  g_afkTargetGuid (globals s) <> GUID_NULL ->
  g_afkTargetGuid (globals s) <> cur_plan (host s) ->
  os_accepts (host s) (g_afkTargetGuid (globals s)) = false ->
  let s' := exec AfkCheckTick s in
  let ok := exec AfkCheckTick (with_host (set_os_accepts (fun _ => true) (host s)) s) in
  g_afkApplied (globals s') = true /\
  g_afkPrevGuid (globals s') = cur_plan (host s) /\
  g_lastActiveGuid (globals s') = g_afkTargetGuid (globals s) /\
  activations (trace s') = activations (trace s) ++ [g_afkTargetGuid (globals s)] /\
  os_active (host s') = os_active (host s) /\
  globals s' = globals ok /\
  os_active (host ok) = Some (g_afkTargetGuid (globals s)).
Proof.
  intros Ht Hidle Happ Hset Hne Hfail s' ok.
  assert (Hf : fires (cur_plan (host s)) (g_afkTargetGuid (globals s)) = true)
    by (apply fires_true; split; congruence).
  destruct (tick_force s Ht Hidle Happ) as (Ha & Hp & Htg & Htm & Hl & Hc & Hh).
  destruct (tick_force (with_host (set_os_accepts (fun _ => true) (host s)) s)
              Ht Hidle Happ) as (Ha' & Hp' & Htg' & Htm' & Hl' & _ & Hh').
  fold s' in Ha, Hp, Htg, Htm, Hl, Hc, Hh. fold ok in Ha', Hp', Htg', Htm', Hl', Hh'.
  simpl in Hp', Htg', Htm', Hl', Hh'.
  change (cur_plan (set_os_accepts (fun _ => true) (host s)))
    with (cur_plan (host s)) in *.
  rewrite Hf in *.
  repeat split; try assumption.
  - rewrite Hh. unfold activated. now rewrite Hfail.
  - apply Globals_eq; congruence.
  - rewrite Hh'. reflexivity.
Qed.

Lemma forcing_ignores_failed_activation_witness :
  let s := Sample.scenario_A false in
  let s' := exec AfkCheckTick s in
  let ok := exec AfkCheckTick (with_host (set_os_accepts (fun _ => true) (host s)) s) in
  g_afkApplied (globals s') = true /\
  g_afkPrevGuid (globals s') = cur_plan (host s) /\
  g_lastActiveGuid (globals s') = g_afkTargetGuid (globals s) /\
  activations (trace s') = activations (trace s) ++ [g_afkTargetGuid (globals s)] /\
  os_active (host s') = os_active (host s) /\
  globals s' = globals ok /\
  os_active (host ok) = Some (g_afkTargetGuid (globals s)).
Proof.
  apply (forcing_ignores_failed_activation (Sample.scenario_A false));
    vm_compute; congruence.
Defined.

(** From the applied state, a tick with a positive timeout and idle time
    under the threshold it computes reads the active plan; when it differs
    from a set [g_afkPrevGuid] the tick activates [g_afkPrevGuid] exactly
    once and moves [g_lastActiveGuid] to it, otherwise it activates
    nothing; either way [g_afkApplied] is cleared. *)
Lemma restore_on_threshold (s : Sys) :
  0 < g_afkTimeoutMinutes (globals s) ->
  GetIdleSeconds (host s) < threshold (g_afkTimeoutMinutes (globals s)) ->
  g_afkApplied (globals s) = true ->
  let s' := exec AfkCheckTick s in
  let prev := g_afkPrevGuid (globals s) in
  g_afkApplied (globals s') = false /\
  (cur_plan (host s) <> prev /\ prev <> GUID_NULL ->
   activations (trace s') = activations (trace s) ++ [prev] /\
   g_lastActiveGuid (globals s') = prev) /\
  (~ (cur_plan (host s) <> prev /\ prev <> GUID_NULL) ->
   activations (trace s') = activations (trace s) /\
   g_lastActiveGuid (globals s') = g_lastActiveGuid (globals s)).
Proof.
  intros Ht Hidle Happ s' prev.
  destruct (tick_restore s Ht Hidle Happ) as (Ha & _ & _ & _ & Hl & Hc & _).
  fold s' prev in Ha, Hl, Hc.
  split; [assumption|]. split; intros Hcond.
  - apply fires_true in Hcond. rewrite Hcond in *. now split.
  - rewrite <- fires_true in Hcond. apply not_true_is_false in Hcond.
    rewrite Hcond, ?app_nil_r in *. now split.
Qed.

(** Scenario B: the restore does fire there. *)
Example scenario_B_restores :
  activations (trace (exec AfkCheckTick Sample.scenario_B)) = [Sample.PlanA] /\
  g_afkApplied (globals (exec AfkCheckTick Sample.scenario_B)) = false /\
  g_lastActiveGuid (globals (exec AfkCheckTick Sample.scenario_B)) = Sample.PlanA.
Proof. repeat split; reflexivity. Qed.

(** *** Sequences of ticks *)

(** A tick leaves the state alone, forces, or restores. *)
Lemma tick_cases (s : Sys) :
  let s' := exec AfkCheckTick s in
  let target := g_afkTargetGuid (globals s) in
  let prev := g_afkPrevGuid (globals s) in
  let cur := cur_plan (host s) in
  s' = s \/
  (g_afkApplied (globals s) = false /\
   0 < g_afkTimeoutMinutes (globals s) /\
   g_afkApplied (globals s') = true /\
   g_afkPrevGuid (globals s') = cur /\
   g_afkTargetGuid (globals s') = target /\
   g_afkTimeoutMinutes (globals s') = g_afkTimeoutMinutes (globals s) /\
   activations (trace s') =
     activations (trace s) ++ (if fires cur target then [target] else [])) \/
  (g_afkApplied (globals s) = true /\
   g_afkApplied (globals s') = false /\
   g_afkTargetGuid (globals s') = target /\
   g_afkTimeoutMinutes (globals s') = g_afkTimeoutMinutes (globals s) /\
   activations (trace s') =
     activations (trace s) ++ (if fires cur prev then [prev] else [])).
Proof.
  intros s' target prev cur. subst s'. unfold exec.
  destruct (Z_lt_le_dec 0 (g_afkTimeoutMinutes (globals s))) as [Ht|Ht];
    [|left; now rewrite tick_disabled].
  destruct (Z_lt_le_dec (GetIdleSeconds (host s))
              (threshold (g_afkTimeoutMinutes (globals s)))) as [Hi|Hi];
    destruct (g_afkApplied (globals s)) eqn:Happ.
  - right; right.
    destruct (tick_restore s Ht Hi Happ) as (Ha & _ & Htg & Htm & _ & Hc & _).
    auto 10.
  - left. now rewrite tick_active_inactive.
  - left. now rewrite tick_idle_forced.
  - right; left.
    destruct (tick_force s Ht Hi Happ) as (Ha & Hp & Htg & Htm & _ & Hc & _).
    auto 10.
Qed.

Lemma tick_keeps_config (s : Sys) :
  g_afkTimeoutMinutes (globals (exec AfkCheckTick s)) = g_afkTimeoutMinutes (globals s) /\
  g_afkTargetGuid (globals (exec AfkCheckTick s)) = g_afkTargetGuid (globals s).
Proof.
  destruct (tick_cases s) as [-> | [H | H]]; [now split | |]; tauto.
Qed.

(** While the engine is applied and the user stays idle, ticks do nothing. *)
Lemma run_ticks_idle_forced (hs : list Host) (s : Sys) :
  0 < g_afkTimeoutMinutes (globals s) ->
  g_afkApplied (globals s) = true ->
  Forall (fun h => threshold (g_afkTimeoutMinutes (globals s)) <= GetIdleSeconds h) hs ->
  globals (run_ticks hs s) = globals s /\ trace (run_ticks hs s) = trace s.
Proof.
  revert s. induction hs as [|h hs IH]; intros s Ht Happ Hidle; [now split|].
  apply Forall_cons in Hidle as [Hh Hhs].
  simpl. unfold exec. rewrite tick_idle_forced by assumption. simpl.
  apply (IH (with_host h s)); assumption.
Qed.

(** C5. Once a tick has forced the switch (one [SetActivePlan] of the
    target, [g_afkApplied] set), further ticks at or over the threshold
    request nothing: the activations of the whole run are that one. *)
Theorem forcing_is_idempotent (s : Sys) (h : Host) (hs : list Host) :
  let t := g_afkTimeoutMinutes (globals s) in
  let target := g_afkTargetGuid (globals s) in
  0 < t ->
  g_afkApplied (globals s) = false ->
  target <> GUID_NULL ->
  target <> cur_plan h ->
  threshold t <= GetIdleSeconds h ->
  Forall (fun h' => threshold t <= GetIdleSeconds h') hs ->
  let s1 := exec AfkCheckTick (with_host h s) in
  activations (trace s1) = activations (trace s) ++ [target] /\
  g_afkApplied (globals s1) = true /\
  activations (trace (run_ticks hs s1)) = activations (trace s) ++ [target] /\
  g_afkApplied (globals (run_ticks hs s1)) = true.
Proof.
  intros t target Ht Happ Hset Hne Hidle Hrest s1.
  destruct (tick_force (with_host h s) Ht Hidle Happ)
    as (Ha & _ & _ & Htm & _ & Hc & _).
  fold s1 in Ha, Htm, Hc. simpl in Htm, Hc. fold target in Hc.
  assert (Hf : fires (cur_plan h) target = true)
    by (apply fires_true; split; congruence).
  rewrite Hf in Hc.
  destruct (run_ticks_idle_forced hs s1) as (Hg & Htr).
  - rewrite Htm. exact Ht.
  - exact Ha.
  - rewrite Htm. exact Hrest.
  - rewrite Htr, Hg. auto.
Qed.

Lemma forcing_is_idempotent_witness :
  let s := Sample.scenario_A true in
  let hs := [Sample.a_host (Some Sample.PlanB) 302 true Sample.no_key;
             Sample.a_host (Some Sample.PlanA) 303 true Sample.no_key;
             Sample.a_host None 304 false Sample.no_key] in
  let s1 := exec AfkCheckTick (with_host (host s) s) in
  activations (trace s1) = [] ++ [Sample.PlanB] /\
  g_afkApplied (globals s1) = true /\
  activations (trace (run_ticks hs s1)) = [] ++ [Sample.PlanB] /\
  g_afkApplied (globals (run_ticks hs s1)) = true.
Proof.
  apply (forcing_is_idempotent (Sample.scenario_A true)
           (host (Sample.scenario_A true))).
  - reflexivity.
  - reflexivity.
  - discriminate.
  - discriminate.
  - vm_compute. discriminate.
  - repeat constructor; vm_compute; discriminate.
Defined.

(** With the target unset, a run of ticks activates no all-zero plan, and
    nothing at all while the plan read stays the one saved. *)
Lemma run_ticks_unset_target (hs : list Host) (s : Sys) :
  g_afkTargetGuid (globals s) = GUID_NULL ->
  exists acts,
    activations (trace (run_ticks hs s)) = activations (trace s) ++ acts /\
    Forall (fun g => g <> GUID_NULL) acts /\
    (forall c,
       Forall (fun h => os_active h = c) hs ->
       (g_afkApplied (globals s) = true ->
        forall h, os_active h = c -> g_afkPrevGuid (globals s) = cur_plan h) ->
       acts = []).
Proof.
  revert s. induction hs as [|h hs IH]; intros s Htg.
  { exists []. rewrite app_nil_r. auto. }
  simpl.
  pose proof (tick_cases (with_host h s)) as Hcases. simpl in Hcases.
  set (s1 := exec AfkCheckTick (with_host h s)) in *.
  destruct Hcases as [Hsame | [(Happ & _ & Ha & Hp & Htg1 & _ & Hc) | (Happ & Ha & Htg1 & _ & Hc)]].
  - destruct (IH s1) as (acts & Hacts & Hall & Hconst).
    { rewrite Hsame. exact Htg. }
    exists acts. rewrite Hacts, Hsame. simpl. repeat split; [assumption|].
    intros c Hc Hinv. apply Forall_cons in Hc as [Hh Hhs].
    apply (Hconst c Hhs). rewrite Hsame. exact Hinv.
  - rewrite Htg, fires_NULL, app_nil_r in Hc.
    destruct (IH s1) as (acts & Hacts & Hall & Hconst); [congruence|].
    exists acts. rewrite Hacts, Hc. repeat split; [assumption|].
    intros c Hcs _. apply Forall_cons in Hcs as [Hh Hhs].
    apply (Hconst c Hhs). intros _ h' Hh'. rewrite Hp.
    unfold cur_plan. now rewrite Hh, Hh'.
  - destruct (IH s1) as (acts & Hacts & Hall & Hconst); [congruence|].
    destruct (fires (cur_plan h) (g_afkPrevGuid (globals s))) eqn:Hf.
    + exists (g_afkPrevGuid (globals s) :: acts).
      rewrite Hacts, Hc, <- app_assoc. repeat split.
      * constructor; [|assumption]. now apply fires_true in Hf.
      * intros c Hcs Hinv. apply Forall_cons in Hcs as [Hh Hhs].
        rewrite (Hinv Happ h Hh), fires_same in Hf. discriminate.
    + exists acts. rewrite Hacts, Hc, app_nil_r. repeat split; [assumption|].
      intros c Hcs _. apply Forall_cons in Hcs as [Hh Hhs].
      apply (Hconst c Hhs). congruence.
Qed.

(** C2, as the code has it. With the target unset, a run of ticks never
    requests the activation of the target: every plan it activates along
    the way is a set one, not the unset target. A restoring tick may still
    activate the plan saved at the forcing tick, when the plan then read is
    another one; started not applied, the run requests no activation at
    all provided all its ticks read the same active plan. *)
Theorem unset_target_only_restores (hs : list Host) (s : Sys) :
  g_afkTargetGuid (globals s) = GUID_NULL ->
  exists acts,
    activations (trace (run_ticks hs s)) = activations (trace s) ++ acts /\
    Forall (fun g => g <> g_afkTargetGuid (globals s)) acts /\
    (g_afkApplied (globals s) = false ->
     forall c, Forall (fun h => os_active h = c) hs -> acts = []).
Proof.
  intros Htg.
  destruct (run_ticks_unset_target hs s Htg) as (acts & Hacts & Hall & Hconst).
  exists acts. rewrite Htg. repeat split; try assumption.
  intros Happ c Hc. apply (Hconst c Hc). congruence.
Qed.

Lemma unset_target_only_restores_witness :
  exists acts,
    activations (trace (run_ticks
       [host Sample.scenario_C;
        Sample.a_host (Some Sample.PlanB) 0 true Sample.no_key]
       Sample.scenario_C)) = activations (trace Sample.scenario_C) ++ acts /\
    Forall (fun g => g <> g_afkTargetGuid (globals Sample.scenario_C)) acts /\
    (g_afkApplied (globals Sample.scenario_C) = false ->
     forall c,
       Forall (fun h => os_active h = c)
         [host Sample.scenario_C;
          Sample.a_host (Some Sample.PlanB) 0 true Sample.no_key] ->
       acts = []).
Proof.
  apply (unset_target_only_restores
           [host Sample.scenario_C;
            Sample.a_host (Some Sample.PlanB) 0 true Sample.no_key]
           Sample.scenario_C).
  reflexivity.
Defined.

(** C2 as stated fails: timeout 10, target unset. The first tick (idle
    700 s, [PlanA] active) applies and saves [PlanA]; the plan is then
    switched to [PlanB] from outside; the next tick (input resumed)
    requests [PlanA]. *)
Lemma unset_target_restore_counterexample :
  g_afkTargetGuid (globals Sample.scenario_C) = GUID_NULL /\
  g_afkTimeoutMinutes (globals Sample.scenario_C) = 10 /\
  g_afkApplied (globals Sample.scenario_C) = false /\
  trace Sample.scenario_C = [] /\
  activations (trace (run_ticks
     [host Sample.scenario_C;
      Sample.a_host (Some Sample.PlanB) 0 true Sample.no_key]
     Sample.scenario_C)) = [Sample.PlanA] /\
  g_afkTargetGuid (globals (run_ticks
     [host Sample.scenario_C;
      Sample.a_host (Some Sample.PlanB) 0 true Sample.no_key]
     Sample.scenario_C)) = GUID_NULL.
Proof. repeat split; reflexivity. Qed.

(** ** The active-plan tracker *)

(** C3, as the code has it. The poll handler is [reconcile()]: it reads the
    active plan, compares it with [g_lastActiveGuid] and on a mismatch
    stores it and refreshes the tooltip. The notification handler only
    refreshes the tooltip: it compares nothing and leaves
    [g_lastActiveGuid] as it was. *)
Theorem poll_reconciles_notification_refreshes (IDM_EXIT : Z) (s : Sys) :
  WndProc IDM_EXIT (WM_TIMER TIMER_EVENT_POLL_ACTIVE) s = (0, exec Spec.reconcile s) /\
  WndProc IDM_EXIT (WM_POWERBROADCAST PBT_POWERSETTINGCHANGE) s =
    (1, logged (Shell_NotifyIcon_MODIFY (tray_tip (host s))) s).
Proof.
  split.
  - unfold WndProc. simpl. unfold exec, Spec.reconcile, Spec.getActive,
      Spec.signal_refresh, OnPollActive, GetActivePlanGuid, bind, ask, ret,
      read, when, assign.
    destruct (os_active (host s)) as [now|]; simpl; [|reflexivity].
    destruct (IsEqualGUID now (g_lastActiveGuid (globals s))); simpl;
      [reflexivity|].
    now destruct (UpdateTrayTooltip _).
  - unfold WndProc, OnPowerSettingChange, bind, ret. simpl.
    now rewrite UpdateTrayTooltip_run.
Qed.

(** C3 as stated fails: after a switch from [PlanA] to [PlanB] the poll
    stores [PlanB], the notification leaves [PlanA]; and with nothing
    changed the poll is silent while the notification refreshes. *)
Lemma notification_is_not_reconcile_counterexample :
  g_lastActiveGuid (globals (exec
     (WndProc Sample.IDM_EXIT (WM_TIMER TIMER_EVENT_POLL_ACTIVE))
     Sample.plan_changed)) = Sample.PlanB /\
  g_lastActiveGuid (globals (exec
     (WndProc Sample.IDM_EXIT (WM_POWERBROADCAST PBT_POWERSETTINGCHANGE))
     Sample.plan_changed)) = Sample.PlanA /\
  trace (exec (WndProc Sample.IDM_EXIT (WM_TIMER TIMER_EVENT_POLL_ACTIVE))
     Sample.in_sync) = [] /\
  trace (exec (WndProc Sample.IDM_EXIT (WM_POWERBROADCAST PBT_POWERSETTINGCHANGE))
     Sample.in_sync) = [Shell_NotifyIcon_MODIFY "Balanced"].
Proof. repeat split; reflexivity. Qed.

(** ** The settings store *)

Lemma RegGetValueW_fits (hKey : gmap string RegValue) (valueName : string)
    (ty : RegType) (data buf : list byte) :
  hKey !! valueName = Some (mkRegValue ty data) ->
  length data = length buf ->
  RegGetValueW hKey valueName ty buf = Some (data, Z.of_nat (length data)).
Proof.
  intros Hv Hlen. unfold RegGetValueW. rewrite Hv. simpl.
  replace (RegType_eqb ty ty) with true by now destruct ty.
  rewrite Hlen, Z.leb_refl. simpl.
  rewrite drop_all, app_nil_r. reflexivity.
Qed.

Lemma load_timeout_persisted (r : Registry) (k : gmap string RegValue)
    (dw : list byte) (dflt : Z) :
  reg_query_ok r = true -> reg_key r = Some k ->
  k !! "AfkTimeoutMinutes" = Some (mkRegValue REG_DWORD dw) ->
  length dw = 4%nat ->
  load_timeout r dflt = Mach.to_int (Mach.le_decode dw).
Proof.
  intros Hq Hk Hv Hlen. unfold load_timeout, readable_key. rewrite Hq, Hk.
  now rewrite (RegGetValueW_fits k _ _ dw (zero_bytes 4) Hv).
Qed.

Lemma load_target_persisted (r : Registry) (k : gmap string RegValue)
    (g : list byte) (dflt : GUID) :
  reg_query_ok r = true -> reg_key r = Some k ->
  k !! "AfkTargetPlan" = Some (mkRegValue REG_BINARY g) ->
  length g = 16%nat ->
  guid_bytes (load_target r dflt) = g.
Proof.
  intros Hq Hk Hv Hlen. unfold load_target, readable_key. rewrite Hq, Hk.
  rewrite (RegGetValueW_fits k _ _ g (guid_bytes GUID_NULL) Hv) by exact Hlen.
  rewrite Hlen. simpl.
  destruct (guid_of_bytes_length g Hlen) as (g' & -> & Hg'). exact Hg'.
Qed.

Lemma le_encode_DWORD_of_int (dw : list byte) :
  length dw = 4%nat ->
  Mach.le_encode 4 (Mach.to_DWORD (Mach.to_int (Mach.le_decode dw))) = dw.
Proof.
  intros Hlen. rewrite to_DWORD_to_int. unfold Mach.to_DWORD, Mach.two32.
  pose proof (le_decode_range dw) as Hr. rewrite Hlen in Hr.
  rewrite Z.mod_small by (change (256 ^ Z.of_nat 4) with (2 ^ 32) in Hr; exact Hr).
  rewrite <- Hlen. apply le_encode_decode.
Qed.

(** What [AfkSaveSettings] writes is a persisted configuration. *)
Lemma saved_is_persisted (g : Globals) (r : Registry) :
  reg_query_ok r = true -> reg_set_ok r = true ->
  persisted_config (saved g r).
Proof.
  intros Hq Hw. unfold persisted_config, saved. rewrite Hw. simpl.
  repeat split; try assumption.
  eexists _, _, _. split; [reflexivity|].
  rewrite lookup_insert_ne by discriminate.
  rewrite !lookup_insert_eq.
  repeat split; try reflexivity. apply guid_bytes_length.
Qed.

(** C8. On a registry that holds a persisted configuration, loading the
    two fields and saving them again leaves every byte of the registry as
    it was, whatever the globals held before the load. *)
Theorem save_load_fixed_point (s : Sys) :
  persisted_config (os_registry (host s)) ->
  os_registry (host (exec (AfkLoadSettings ;;; AfkSaveSettings) s)) =
  os_registry (host s).
Proof.
  intros (Hq & Hw & k & dw & g & Hk & Hdw & Hdwlen & Hg & Hglen).
  unfold exec, bind. rewrite AfkLoadSettings_run, AfkSaveSettings_run.
  simpl.
  replace (os_registry (set_os_registry _ (host s))) with
    (saved (set_afkTargetGuid
              (load_target (os_registry (host s)) (g_afkTargetGuid (globals s)))
              (set_afkTimeoutMinutes
                 (load_timeout (os_registry (host s)) (g_afkTimeoutMinutes (globals s)))
                 (globals s)))
           (os_registry (host s))) by reflexivity.
  unfold saved. rewrite Hw.
  unfold set_afkTargetGuid, set_afkTimeoutMinutes.
  cbn [g_afkTimeoutMinutes g_afkTargetGuid].
  rewrite (load_timeout_persisted _ k dw _ Hq Hk Hdw Hdwlen).
  rewrite (load_target_persisted _ k g _ Hq Hk Hg Hglen).
  rewrite le_encode_DWORD_of_int by exact Hdwlen.
  unfold key_values. rewrite Hk.
  rewrite (insert_id k "AfkTimeoutMinutes") by exact Hdw.
  rewrite (insert_id k "AfkTargetPlan") by exact Hg.
  destruct (os_registry (host s)) as [k' q w]. simpl in *. congruence.
Qed.

Lemma save_load_fixed_point_witness :
  os_registry (host (exec (AfkLoadSettings ;;; AfkSaveSettings)
     (Sample.a_sys 60 GUID_NULL GUID_NULL false
        (Sample.a_host (Some Sample.PlanA) 0 true Sample.a_key)))) =
  os_registry (host
     (Sample.a_sys 60 GUID_NULL GUID_NULL false
        (Sample.a_host (Some Sample.PlanA) 0 true Sample.a_key))).
Proof.
  apply (save_load_fixed_point
           (Sample.a_sys 60 GUID_NULL GUID_NULL false
              (Sample.a_host (Some Sample.PlanA) 0 true Sample.a_key))).
  repeat split.
  exists (<["AfkTimeoutMinutes" := mkRegValue REG_DWORD [x0f; x00; x00; x00]]>
         (<["AfkTargetPlan" := mkRegValue REG_BINARY (guid_bytes Sample.PlanB)]>
         (<["Language" := mkRegValue REG_SZ [x65; x00; x6e; x00; x00; x00]]> ∅))),
    [x0f; x00; x00; x00], (guid_bytes Sample.PlanB).
  repeat split.
Defined.

(** The load does read the sample key: timeout 15, target [PlanB]. *)
Example load_sample_key :
  let s' := exec AfkLoadSettings
              (Sample.a_sys 60 GUID_NULL GUID_NULL false
                 (Sample.a_host (Some Sample.PlanA) 0 true Sample.a_key)) in
  g_afkTimeoutMinutes (globals s') = 15 /\ g_afkTargetGuid (globals s') = Sample.PlanB.
Proof. vm_compute. split; reflexivity. Qed.

Lemma activated_registry (g : GUID) (h : Host) :
  os_registry (activated g h) = os_registry h.
Proof. unfold activated. now destruct (os_accepts h g). Qed.

Lemma saved_timeout (g : Globals) (r : Registry) :
  reg_set_ok r = true ->
  exists k,
    reg_key (saved g r) = Some k /\
    k !! "AfkTimeoutMinutes" =
      Some (mkRegValue REG_DWORD
              (Mach.le_encode 4 (Mach.to_DWORD (g_afkTimeoutMinutes g)))).
Proof.
  intros Hw. unfold saved. rewrite Hw. simpl. eexists. split; [reflexivity|].
  rewrite lookup_insert_ne by discriminate. apply lookup_insert_eq.
Qed.

(** C7. [IDM_AFK_OFF] while applied, with [g_afkPrevGuid] set and another
    plan active: the handler itself activates [g_afkPrevGuid] once, moves
    [g_lastActiveGuid] to it, clears [g_afkApplied], sets the timeout to 0
    and saves; on a registry that takes the write, [AfkTimeoutMinutes] is
    then the [REG_DWORD] 0. *)
Theorem disable_restores_and_persists (s : Sys) :
  g_afkApplied (globals s) = true ->
  g_afkPrevGuid (globals s) <> GUID_NULL ->
  cur_plan (host s) <> g_afkPrevGuid (globals s) ->
  let s' := exec OnAfkOff s in
  let prev := g_afkPrevGuid (globals s) in
  activations (trace s') = activations (trace s) ++ [prev] /\
  g_lastActiveGuid (globals s') = prev /\
  g_afkApplied (globals s') = false /\
  g_afkTimeoutMinutes (globals s') = 0 /\
  os_registry (host s') =
    saved (set_afkTimeoutMinutes 0 (globals s)) (os_registry (host s)) /\
  (reg_set_ok (os_registry (host s)) = true ->
   exists k,
     reg_key (os_registry (host s')) = Some k /\
     k !! "AfkTimeoutMinutes" = Some (mkRegValue REG_DWORD [x00; x00; x00; x00])).
Proof.
  destruct s as [[last t target prev applied] h tr]. simpl.
  intros -> Hset Hne.
  assert (E1 : IsEqualGUID (cur_plan h) prev = false)
    by (now apply IsEqualGUID_false).
  assert (E2 : IsEqualGUID prev GUID_NULL = false)
    by (now apply IsEqualGUID_false).
  unfold cur_plan in E1. unfold exec.
  destruct (os_active h) as [c|] eqn:Hact; run;
    rewrite !activations_app, activated_registry; simpl; rewrite app_nil_r;
    (repeat split; intros Hw;
     match goal with
     | |- context [saved ?g ?r] => exact (saved_timeout g r Hw)
     end).
Qed.

(** Scenario D: disabled while applied with [PlanA] saved and [PlanB]
    active. *)
Lemma disable_restores_and_persists_witness :
  let s := Sample.a_sys 5 Sample.PlanB Sample.PlanA true
             (Sample.a_host (Some Sample.PlanB) 400 true Sample.a_key) in
  let s' := exec OnAfkOff s in
  let prev := g_afkPrevGuid (globals s) in
  activations (trace s') = activations (trace s) ++ [prev] /\
  g_lastActiveGuid (globals s') = prev /\
  g_afkApplied (globals s') = false /\
  g_afkTimeoutMinutes (globals s') = 0 /\
  os_registry (host s') =
    saved (set_afkTimeoutMinutes 0 (globals s)) (os_registry (host s)) /\
  (reg_set_ok (os_registry (host s)) = true ->
   exists k,
     reg_key (os_registry (host s')) = Some k /\
     k !! "AfkTimeoutMinutes" = Some (mkRegValue REG_DWORD [x00; x00; x00; x00])).
Proof.
  apply (disable_restores_and_persists
           (Sample.a_sys 5 Sample.PlanB Sample.PlanA true
              (Sample.a_host (Some Sample.PlanB) 400 true Sample.a_key)));
    vm_compute; congruence.
Defined.

(** ** Startup *)

Lemma load_target_of_exec (s : Sys) :
  g_afkTargetGuid (globals (exec AfkLoadSettings s)) =
  load_target (os_registry (host s)) (g_afkTargetGuid (globals s)).
Proof. unfold exec. now rewrite AfkLoadSettings_run. Qed.

(** The target [CreateHiddenWindow] leaves, when the window is created. *)
Lemma startup_target (s : Sys) :
  os_window_ok (host s) = true ->
  let loaded := g_afkTargetGuid (globals (exec AfkLoadSettings s)) in
  eval CreateHiddenWindow s = true /\
  host (exec CreateHiddenWindow s) = host s /\
  g_afkApplied (globals (exec CreateHiddenWindow s)) = g_afkApplied (globals s) /\
  g_afkTimeoutMinutes (globals (exec CreateHiddenWindow s)) =
    load_timeout (os_registry (host s)) (g_afkTimeoutMinutes (globals s)) /\
  g_afkTargetGuid (globals (exec CreateHiddenWindow s)) =
    (if IsEqualGUID loaded GUID_NULL
     then match os_active (host s) with
          | Some cur => cur
          | None => loaded
          end
     else loaded).
Proof.
  intros Hwin loaded. subst loaded. rewrite load_target_of_exec.
  destruct s as [[last t target prev applied] h tr]. simpl in *.
  unfold exec, eval.
  destruct (IsEqualGUID (load_target (os_registry h) target) GUID_NULL) eqn:E;
    destruct (os_active h) as [c|] eqn:Hact; run; simpl; auto.
Qed.

(** C9. At startup, when the target loaded is unset and the active plan
    can be read, the target becomes the active plan; a target loaded set
    is kept. So with an active plan that is readable (and, as every plan's,
    not the all-zero identifier) the target is set once startup is over. *)
Theorem startup_defaults_unset_target (s : Sys) (cur : GUID) :
  os_window_ok (host s) = true ->
  os_active (host s) = Some cur ->
  let loaded := g_afkTargetGuid (globals (exec AfkLoadSettings s)) in
  let s' := exec CreateHiddenWindow s in
  (loaded = GUID_NULL -> g_afkTargetGuid (globals s') = cur) /\
  (loaded <> GUID_NULL -> g_afkTargetGuid (globals s') = loaded) /\
  (cur <> GUID_NULL -> g_afkTargetGuid (globals s') <> GUID_NULL).
Proof.
  intros Hwin Hact loaded s'.
  destruct (startup_target s Hwin) as (_ & _ & _ & _ & Htg).
  fold loaded s' in Htg. rewrite Hact in Htg.
  destruct (IsEqualGUID loaded GUID_NULL) eqn:E.
  - apply IsEqualGUID_true in E. repeat split; congruence.
  - apply IsEqualGUID_false in E. repeat split; congruence.
Qed.

Lemma startup_defaults_unset_target_witness :
  let s := initial (Sample.a_host (Some Sample.PlanA) 0 true Sample.no_key) in
  let loaded := g_afkTargetGuid (globals (exec AfkLoadSettings s)) in
  let s' := exec CreateHiddenWindow s in
  (loaded = GUID_NULL -> g_afkTargetGuid (globals s') = Sample.PlanA) /\
  (loaded <> GUID_NULL -> g_afkTargetGuid (globals s') = loaded) /\
  (Sample.PlanA <> GUID_NULL -> g_afkTargetGuid (globals s') <> GUID_NULL).
Proof.
  apply (startup_defaults_unset_target
           (initial (Sample.a_host (Some Sample.PlanA) 0 true Sample.no_key))
           Sample.PlanA); reflexivity.
Defined.

(** First launch, nothing persisted, [PlanA] active: the target is [PlanA]. *)
Example startup_first_launch :
  g_afkTargetGuid (globals (exec CreateHiddenWindow
     (initial (Sample.a_host (Some Sample.PlanA) 0 true Sample.no_key)))) =
  Sample.PlanA.
Proof. reflexivity. Qed.

(** With the active plan unreadable the target stays unset. *)
Example startup_unreadable :
  g_afkTargetGuid (globals (exec CreateHiddenWindow
     (initial (Sample.a_host None 0 true Sample.no_key)))) = GUID_NULL.
Proof. reflexivity. Qed.

(** ** The whole program: applied only while enabled *)

Lemma exec_then_ret {A} (m : M unit) (a : A) (s : Sys) :
  exec (m ;;; ret a) s = exec m s.
Proof. unfold exec, bind, ret. now destruct (m s). Qed.

Lemma tick_keeps_invariant (s : Sys) :
  applied_implies_enabled s -> applied_implies_enabled (exec AfkCheckTick s).
Proof.
  unfold applied_implies_enabled. intros Hinv.
  destruct (tick_cases s) as [-> | [H | H]]; [assumption | |].
  - destruct H as (_ & Ht & _ & _ & _ & Htm & _). intros _. now rewrite Htm.
  - destruct H as (_ & Ha & _). congruence.
Qed.

Lemma OnAfkOff_clears (s : Sys) : g_afkApplied (globals (exec OnAfkOff s)) = false.
Proof.
  destruct s as [[last t target prev applied] h tr]. unfold exec.
  destruct applied; [|now run].
  destruct (os_active h) as [c|] eqn:Hact;
    [destruct (IsEqualGUID c prev) eqn:E1
    |destruct (IsEqualGUID GUID_NULL prev) eqn:E1];
    destruct (IsEqualGUID prev GUID_NULL) eqn:E2; now run.
Qed.

Lemma intervals_positive : Forall (fun m => 0 < m) intervals.
Proof. unfold intervals. repeat constructor. Qed.

Lemma OnAfkInterval_keeps_invariant (cmd : Z) (s : Sys) :
  applied_implies_enabled s -> applied_implies_enabled (exec (OnAfkInterval cmd) s).
Proof.
  unfold applied_implies_enabled. intros Hinv.
  destruct s as [[last t target prev applied] h tr]. unfold exec, OnAfkInterval.
  destruct ((0 <=? cmd - IDM_AFK_INTERVAL_BASE) && (cmd - IDM_AFK_INTERVAL_BASE <? 7));
    [|exact Hinv].
  destruct (intervals !! Z.to_nat (cmd - IDM_AFK_INTERVAL_BASE)) as [m|] eqn:E;
    [|exact Hinv].
  pose proof (Forall_lookup_1 _ _ _ _ intervals_positive E) as Hm.
  run. simpl. intros _. exact Hm.
Qed.

Lemma OnAfkTarget_keeps_invariant (cmd : Z) (s : Sys) :
  applied_implies_enabled s -> applied_implies_enabled (exec (OnAfkTarget cmd) s).
Proof.
  unfold applied_implies_enabled. intros Hinv.
  destruct s as [[last t target prev applied] h tr]. unfold exec.
  destruct (EnumeratePlans h !! Z.to_nat (Mach.to_DWORD (cmd - IDM_AFK_TARGET_BASE)))
    as [p|] eqn:E; run; exact Hinv.
Qed.

Lemma OnSelectPlan_keeps_globals (cmd : Z) (s : Sys) :
  globals (exec (OnSelectPlan cmd) s) = globals s.
Proof.
  destruct s as [g h tr]. unfold exec.
  destruct (EnumeratePlans h !! Z.to_nat (Mach.to_DWORD (cmd - ID_BASE_PLAN)))
    as [p|] eqn:E; now run.
Qed.

Lemma OnPollActive_keeps_invariant (s : Sys) :
  applied_implies_enabled s -> applied_implies_enabled (exec OnPollActive s).
Proof.
  unfold applied_implies_enabled. intros Hinv.
  destruct s as [[last t target prev applied] h tr]. unfold exec.
  destruct (os_active h) as [c|] eqn:Hact;
    [destruct (IsEqualGUID c last) eqn:E|]; run; exact Hinv.
Qed.

Lemma WndProc_keeps_invariant (IDM_EXIT : Z) (m : Message) (s : Sys) :
  applied_implies_enabled s ->
  applied_implies_enabled (exec (WndProc IDM_EXIT m) s).
Proof.
  intros Hinv. destruct m as [| |wParam|lParam|wParam| |wParam| |]; unfold WndProc.
  - destruct s as [g h tr]. unfold exec. now run.
  - exact Hinv.
  - repeat match goal with
           | |- context [if ?c then _ else _] => destruct c
           end; rewrite ?exec_then_ret.
    + exact Hinv.
    + destruct s as [g h tr]. unfold exec. now run.
    + destruct s as [g h tr]. unfold exec. now run.
    + unfold applied_implies_enabled. rewrite OnAfkOff_clears. discriminate.
    + now apply OnAfkInterval_keeps_invariant.
    + now apply OnAfkTarget_keeps_invariant.
    + unfold applied_implies_enabled. now rewrite OnSelectPlan_keeps_globals.
    + exact Hinv.
  - destruct (_ || _); destruct s as [g h tr]; unfold exec; now run.
  - destruct (_ =? _); rewrite ?exec_then_ret.
    + destruct s as [g h tr]. unfold exec. now run.
    + exact Hinv.
  - destruct s as [g h tr]. unfold exec. now run.
  - repeat match goal with
           | |- context [if ?c then _ else _] => destruct c
           end; rewrite ?exec_then_ret.
    + now apply OnPollActive_keeps_invariant.
    + now apply tick_keeps_invariant.
    + exact Hinv.
  - exact Hinv.
  - exact Hinv.
Qed.

(** In every state of a run, [g_afkApplied] implies a positive timeout:
    no tick of a run meets the applied state with the feature disabled. *)
Lemma reachable_applied_implies_enabled (IDM_EXIT : Z) (s : Sys) :
  reachable IDM_EXIT s -> applied_implies_enabled s.
Proof.
  induction 1 as [h Hok | s m _ IH | s h _ IH].
  - unfold applied_implies_enabled.
    assert (Hwin : os_window_ok (host (initial h)) = true).
    { unfold eval, CreateHiddenWindow, bind at 1, ask in Hok. simpl in Hok.
      destruct (os_window_ok h) eqn:Hw; [exact Hw | discriminate Hok]. }
    destruct (startup_target (initial h) Hwin) as (_ & _ & Ha & _).
    rewrite Ha. discriminate.
  - now apply WndProc_keeps_invariant.
  - exact IH.
Qed.

(** ** The threshold *)

(** For every timeout the menu offers, and up to 71582788 minutes, the
    threshold is the timeout in seconds; beyond, the 32-bit product wraps. *)
Lemma threshold_no_wrap (timeoutMinutes : Z) :
  0 <= timeoutMinutes <= 71582788 ->
  threshold timeoutMinutes = timeoutMinutes * 60.
Proof.
  intros H. unfold threshold, Mach.to_DWORD, Mach.two32.
  rewrite (Z.mod_small timeoutMinutes) by lia.
  apply Z.mod_small. lia.
Qed.

Lemma threshold_of_intervals :
  Forall (fun m => threshold m = m * 60) intervals.
Proof. unfold intervals. repeat constructor. Qed.

(** Scenario A: timeout 5, idle 301 s, [PlanA] active, target [PlanB]. *)
Example scenario_A_forces :
  let s' := exec AfkCheckTick (Sample.scenario_A true) in
  activations (trace s') = [Sample.PlanB] /\
  g_afkApplied (globals s') = true /\
  g_afkPrevGuid (globals s') = Sample.PlanA /\
  os_active (host s') = Some Sample.PlanB.
Proof. repeat split; reflexivity. Qed.

(** ** Dispatch

    The handlers above are what [WndProc] runs for their messages. *)

Lemma WndProc_AFK_CHECK (IDM_EXIT : Z) (s : Sys) :
  WndProc IDM_EXIT (WM_TIMER TIMER_EVENT_AFK_CHECK) s = (0, exec AfkCheckTick s).
Proof.
  unfold WndProc, exec, bind, ret. simpl.
  now destruct (AfkCheckTick s).
Qed.

Lemma WndProc_AFK_OFF (IDM_EXIT : Z) (wParam : Z) (s : Sys) :
  IDM_EXIT <> IDM_AFK_OFF ->
  LOWORD wParam = IDM_AFK_OFF ->
  WndProc IDM_EXIT (WM_COMMAND wParam) s = (0, exec OnAfkOff s).
Proof.
  intros Hexit Hcmd. unfold WndProc. rewrite Hcmd.
  destruct (Z.eqb_spec IDM_AFK_OFF IDM_EXIT) as [E|_]; [congruence|].
  unfold exec, bind, ret. simpl.
  now destruct (OnAfkOff s).
Qed.

Lemma GetIdleSeconds_range (h : Host) : Mach.is_DWORD (GetIdleSeconds h).
Proof.
  unfold Mach.is_DWORD, GetIdleSeconds, Mach.to_DWORD, Mach.two32.
  destruct (os_last_input h) as [dwTime|]; [|lia].
  destruct (os_tick_count h <? dwTime); [lia|].
  apply Z.mod_pos_bound. lia.
Qed.

(** An idle time of [timeoutMinutes * 60] seconds or more is at or over
    the threshold the tick computes, wrap or no wrap. *)
Lemma threshold_reached (timeoutMinutes : Z) (h : Host) :
  0 < timeoutMinutes ->
  timeoutMinutes * 60 <= GetIdleSeconds h ->
  threshold timeoutMinutes <= GetIdleSeconds h.
Proof.
  intros Ht Hidle. pose proof (GetIdleSeconds_range h) as Hr.
  unfold Mach.is_DWORD, Mach.two32 in Hr.
  rewrite threshold_no_wrap; [exact Hidle|]. lia.
Qed.

(** The wrap is there: at 71582789 minutes the threshold is 44 seconds. *)
Example threshold_wraps : threshold 71582789 = 44.
Proof. reflexivity. Qed.

(** * Further properties of the code *)

(** ** What a tick touches *)

Lemma activated_keeps (g : GUID) (h : Host) :
  os_registry (activated g h) = os_registry h /\
  os_accepts (activated g h) = os_accepts h /\
  os_schemes (activated g h) = os_schemes h /\
  GetIdleSeconds (activated g h) = GetIdleSeconds h.
Proof. unfold activated. destruct (os_accepts h g); repeat split. Qed.

Lemma tick_host (s : Sys) :
  host (exec AfkCheckTick s) = host s \/
  exists g, host (exec AfkCheckTick s) = activated g (host s).
Proof.
  unfold exec.
  destruct (Z_lt_le_dec 0 (g_afkTimeoutMinutes (globals s))) as [Ht|Ht];
    [|left; now rewrite tick_disabled].
  destruct (Z_lt_le_dec (GetIdleSeconds (host s))
              (threshold (g_afkTimeoutMinutes (globals s)))) as [Hi|Hi];
    destruct (g_afkApplied (globals s)) eqn:Happ.
  - destruct (tick_restore s Ht Hi Happ) as (_ & _ & _ & _ & _ & _ & Hh).
    unfold exec in Hh. rewrite Hh. destruct (fires _ _); eauto.
  - left. now rewrite tick_active_inactive.
  - left. now rewrite tick_idle_forced.
  - destruct (tick_force s Ht Hi Happ) as (_ & _ & _ & _ & _ & _ & Hh).
    unfold exec in Hh. rewrite Hh. destruct (fires _ _); eauto.
Qed.

(** X1. A tick never changes the configuration: the timeout and the target
    stay as they were, and so does every byte of the registry. *)
Theorem tick_keeps_settings (s : Sys) :
  g_afkTimeoutMinutes (globals (exec AfkCheckTick s)) = g_afkTimeoutMinutes (globals s) /\
  g_afkTargetGuid (globals (exec AfkCheckTick s)) = g_afkTargetGuid (globals s) /\
  os_registry (host (exec AfkCheckTick s)) = os_registry (host s).
Proof.
  destruct (tick_keeps_config s) as (Htm & Htg).
  repeat split; try assumption.
  destruct (tick_host s) as [-> | (g & ->)]; [reflexivity|].
  apply activated_keeps.
Qed.

(** X2. A tick requests at most one activation, never of the all-zero
    GUID and never of the plan it has just read as active: either the
    target, when it was not applied, or the saved plan, when it was. *)
Theorem tick_activates_at_most_once (s : Sys) :
  activations (trace (exec AfkCheckTick s)) = activations (trace s) \/
  exists g,
    activations (trace (exec AfkCheckTick s)) = activations (trace s) ++ [g] /\
    g <> GUID_NULL /\
    g <> cur_plan (host s) /\
    ((g_afkApplied (globals s) = false /\ g = g_afkTargetGuid (globals s)) \/
     (g_afkApplied (globals s) = true /\ g = g_afkPrevGuid (globals s))).
Proof.
  destruct (tick_cases s) as [-> | [H | H]]; [now left | |].
  - destruct H as (Happ & _ & _ & _ & _ & _ & Hc).
    destruct (fires _ _) eqn:Hf.
    + right. eexists. split; [exact Hc|].
      apply fires_true in Hf as [Hne Hset]. repeat split; auto.
    + left. now rewrite Hc, app_nil_r.
  - destruct H as (Happ & _ & _ & _ & Hc).
    destruct (fires _ _) eqn:Hf.
    + right. eexists. split; [exact Hc|].
      apply fires_true in Hf as [Hne Hset]. repeat split; auto.
    + left. now rewrite Hc, app_nil_r.
Qed.

(** X3. Force, then recover: on a host that accepts both requests and whose
    active plan nobody else changes, a forcing tick followed by a tick with
    input resumed activates the target, then the plan active before, and
    ends not applied with that plan active again. *)
Theorem force_then_recover (s : Sys) (h2 : Host) (a : GUID) :
  let t := g_afkTimeoutMinutes (globals s) in
  let target := g_afkTargetGuid (globals s) in
  0 < t ->
  g_afkApplied (globals s) = false ->
  os_active (host s) = Some a ->
  a <> GUID_NULL ->
  target <> GUID_NULL ->
  target <> a ->
  os_accepts (host s) target = true ->
  threshold t <= GetIdleSeconds (host s) ->
  os_active h2 = Some target ->
  os_accepts h2 a = true ->
  GetIdleSeconds h2 < threshold t ->
  let s1 := exec AfkCheckTick s in
  let s2 := exec AfkCheckTick (with_host h2 s1) in
  os_active (host s1) = Some target /\
  g_afkApplied (globals s1) = true /\
  activations (trace s2) = activations (trace s) ++ [target; a] /\
  os_active (host s2) = Some a /\
  g_afkApplied (globals s2) = false /\
  g_lastActiveGuid (globals s2) = a.
Proof.
  intros t target Ht Happ Hact Ha Hset Hne Hok Hidle Hact2 Hok2 Hidle2 s1 s2.
  assert (Hcur : cur_plan (host s) = a) by (unfold cur_plan; now rewrite Hact).
  assert (Hf : fires a target = true) by (apply fires_true; split; congruence).
  destruct (tick_force s Ht Hidle Happ) as (Ha1 & Hp1 & _ & Htm1 & _ & Hc1 & Hh1).
  fold s1 t target in Ha1, Hp1, Htm1, Hc1, Hh1.
  rewrite Hcur in Hp1, Hc1, Hh1. rewrite Hf in Hc1, Hh1.
  assert (Hcur2 : cur_plan h2 = target) by (unfold cur_plan; now rewrite Hact2).
  assert (Hf2 : fires target a = true) by (apply fires_true; split; congruence).
  assert (Ht2 : 0 < g_afkTimeoutMinutes (globals (with_host h2 s1)))
    by (simpl; rewrite Htm1; exact Ht).
  assert (Hi2 : GetIdleSeconds (host (with_host h2 s1)) <
                threshold (g_afkTimeoutMinutes (globals (with_host h2 s1))))
    by (simpl; rewrite Htm1; exact Hidle2).
  destruct (tick_restore (with_host h2 s1) Ht2 Hi2 Ha1)
    as (Ha2 & _ & _ & _ & Hl2 & Hc2 & Hh2).
  fold s2 in Ha2, Hl2, Hc2, Hh2. simpl in Hl2, Hc2, Hh2.
  rewrite Hcur2, Hp1, Hf2 in Hl2, Hc2, Hh2.
  repeat split; try assumption.
  - rewrite Hh1. unfold activated. now rewrite Hok.
  - rewrite Hc2, Hc1, <- app_assoc. reflexivity.
  - rewrite Hh2. unfold activated. now rewrite Hok2.
Qed.

Lemma force_then_recover_witness :
  let s := Sample.scenario_A true in
  let s1 := exec AfkCheckTick s in
  let s2 := exec AfkCheckTick (with_host Cases.recovered_host s1) in
  os_active (host s1) = Some Sample.PlanB /\
  g_afkApplied (globals s1) = true /\
  activations (trace s2) = activations (trace s) ++ [Sample.PlanB; Sample.PlanA] /\
  os_active (host s2) = Some Sample.PlanA /\
  g_afkApplied (globals s2) = false /\
  g_lastActiveGuid (globals s2) = Sample.PlanA.
Proof.
  apply (force_then_recover (Sample.scenario_A true) Cases.recovered_host Sample.PlanA);
    vm_compute; congruence.
Defined.

(** X4. With the target already active, the forcing tick applies without
    any request, and the recovery tick on the same plan only clears the
    flag: the whole cycle activates nothing. *)
Theorem cycle_on_target_is_silent (s : Sys) (h2 : Host) :
  let t := g_afkTimeoutMinutes (globals s) in
  let target := g_afkTargetGuid (globals s) in
  0 < t ->
  g_afkApplied (globals s) = false ->
  cur_plan (host s) = target ->
  threshold t <= GetIdleSeconds (host s) ->
  cur_plan h2 = target ->
  GetIdleSeconds h2 < threshold t ->
  let s1 := exec AfkCheckTick s in
  let s2 := exec AfkCheckTick (with_host h2 s1) in
  g_afkApplied (globals s1) = true /\
  g_afkPrevGuid (globals s1) = target /\
  host s1 = host s /\
  g_afkApplied (globals s2) = false /\
  activations (trace s2) = activations (trace s) /\
  g_lastActiveGuid (globals s2) = g_lastActiveGuid (globals s) /\
  host s2 = h2.
Proof.
  intros t target Ht Happ Hcur Hidle Hcur2 Hidle2 s1 s2.
  destruct (tick_force s Ht Hidle Happ) as (Ha1 & Hp1 & _ & Htm1 & Hl1 & Hc1 & Hh1).
  fold s1 t target in Ha1, Hp1, Htm1, Hl1, Hc1, Hh1.
  rewrite Hcur, fires_same in *. rewrite app_nil_r in Hc1.
  assert (Ht2 : 0 < g_afkTimeoutMinutes (globals (with_host h2 s1)))
    by (simpl; rewrite Htm1; exact Ht).
  assert (Hi2 : GetIdleSeconds (host (with_host h2 s1)) <
                threshold (g_afkTimeoutMinutes (globals (with_host h2 s1))))
    by (simpl; rewrite Htm1; exact Hidle2).
  destruct (tick_restore (with_host h2 s1) Ht2 Hi2 Ha1)
    as (Ha2 & _ & _ & _ & Hl2 & Hc2 & Hh2).
  fold s2 in Ha2, Hl2, Hc2, Hh2. simpl in Hl2, Hc2, Hh2.
  rewrite Hcur2, Hp1, fires_same in Hl2, Hc2, Hh2. rewrite app_nil_r in Hc2.
  repeat split; try assumption; congruence.
Qed.

Lemma cycle_on_target_is_silent_witness :
  let s := Cases.on_target in
  let h2 := Sample.a_host (Some Sample.PlanA) 3 true Sample.no_key in
  let s1 := exec AfkCheckTick s in
  let s2 := exec AfkCheckTick (with_host h2 s1) in
  g_afkApplied (globals s1) = true /\
  g_afkPrevGuid (globals s1) = Sample.PlanA /\
  host s1 = host s /\
  g_afkApplied (globals s2) = false /\
  activations (trace s2) = activations (trace s) /\
  g_lastActiveGuid (globals s2) = g_lastActiveGuid (globals s) /\
  host s2 = h2.
Proof.
  apply (cycle_on_target_is_silent Cases.on_target
           (Sample.a_host (Some Sample.PlanA) 3 true Sample.no_key));
    vm_compute; congruence.
Defined.

(** ** The engine within the program *)

(** X5. In every state a run of the program reaches, from startup through
    any messages and any changes of the host, the engine is applied only
    while the timeout is positive. *)
Theorem run_applied_only_while_enabled (IDM_EXIT : Z) (s : Sys) :
  reachable IDM_EXIT s ->
  g_afkApplied (globals s) = true ->
  0 < g_afkTimeoutMinutes (globals s).
Proof.
  intros Hreach. exact (reachable_applied_implies_enabled IDM_EXIT s Hreach).
Qed.

Lemma run_applied_only_while_enabled_witness :
  0 < g_afkTimeoutMinutes (globals Cases.launched_then_idle).
Proof.
  apply (run_applied_only_while_enabled Sample.IDM_EXIT Cases.launched_then_idle).
  - unfold Cases.launched_then_idle, Cases.launched.
    apply reach_message, reach_host, reach_startup. reflexivity.
  - reflexivity.
Defined.

Lemma run_ticks_disabled (hs : list Host) (s : Sys) :
  g_afkTimeoutMinutes (globals s) <= 0 ->
  globals (run_ticks hs s) = globals s /\ trace (run_ticks hs s) = trace s.
Proof.
  revert s. induction hs as [|h hs IH]; intros s Ht; [now split|].
  simpl. unfold exec. rewrite tick_disabled by exact Ht. simpl.
  apply (IH (with_host h s)). exact Ht.
Qed.

Lemma OnAfkOff_timeout (s : Sys) :
  g_afkTimeoutMinutes (globals (exec OnAfkOff s)) = 0.
Proof.
  destruct s as [[last t target prev applied] h tr]. unfold exec.
  destruct applied; [|now run].
  destruct (os_active h) as [c|] eqn:Hact;
    [destruct (IsEqualGUID c prev) eqn:E1
    |destruct (IsEqualGUID GUID_NULL prev) eqn:E1];
    destruct (IsEqualGUID prev GUID_NULL) eqn:E2; now run.
Qed.

(** X6. [IDM_AFK_OFF] stops the engine: whatever the state before, the
    handler leaves the timeout at 0 and the engine not applied, and no
    later tick changes a global or asks anything of the host, whatever
    the idle times. *)
Theorem disable_stops_engine (hs : list Host) (s : Sys) :
  g_afkTimeoutMinutes (globals (exec OnAfkOff s)) = 0 /\
  g_afkApplied (globals (exec OnAfkOff s)) = false /\
  globals (run_ticks hs (exec OnAfkOff s)) = globals (exec OnAfkOff s) /\
  trace (run_ticks hs (exec OnAfkOff s)) = trace (exec OnAfkOff s).
Proof.
  split; [apply OnAfkOff_timeout|]. split; [apply OnAfkOff_clears|].
  apply run_ticks_disabled. rewrite OnAfkOff_timeout. lia.
Qed.

(** X7. [IDM_AFK_OFF] while not applied only sets the timeout to 0 and
    saves: it reads no plan, activates nothing, refreshes no tooltip and
    leaves the other globals and the active plan as they were. *)
Theorem disable_when_inactive (s : Sys) :
  g_afkApplied (globals s) = false ->
  globals (exec OnAfkOff s) = set_afkTimeoutMinutes 0 (globals s) /\
  trace (exec OnAfkOff s) = trace s /\
  os_active (host (exec OnAfkOff s)) = os_active (host s) /\
  os_registry (host (exec OnAfkOff s)) =
    saved (set_afkTimeoutMinutes 0 (globals s)) (os_registry (host s)).
Proof.
  destruct s as [[last t target prev applied] h tr]. simpl. intros ->.
  unfold exec. run. simpl. repeat split.
Qed.

Lemma disable_when_inactive_witness :
  globals (exec OnAfkOff Cases.configured) =
    set_afkTimeoutMinutes 0 (globals Cases.configured) /\
  trace (exec OnAfkOff Cases.configured) = trace Cases.configured /\
  os_active (host (exec OnAfkOff Cases.configured)) =
    os_active (host Cases.configured) /\
  os_registry (host (exec OnAfkOff Cases.configured)) =
    saved (set_afkTimeoutMinutes 0 (globals Cases.configured))
      (os_registry (host Cases.configured)).
Proof.
  apply (disable_when_inactive Cases.configured). reflexivity.
Defined.

(** ** More on the settings store *)

Lemma Z_of_byte_of_Z (z : Z) : Mach.Z_of_byte (Mach.byte_of_Z z) = z mod 256.
Proof.
  unfold Mach.Z_of_byte, Mach.byte_of_Z.
  pose proof (Z.mod_pos_bound z 256 ltac:(lia)) as Hr.
  destruct (Byte.of_N (Z.to_N (z mod 256))) as [b|] eqn:E.
  - apply Byte.to_of_N in E. rewrite E. lia.
  - apply Byte.of_N_None_iff in E. lia.
Qed.

Lemma le_decode_encode (n : nat) (z : Z) :
  Mach.le_decode (Mach.le_encode n z) = z mod 256 ^ Z.of_nat n.
Proof.
  revert z. induction n as [|n IH]; intros z.
  - simpl. now rewrite Z.mod_1_r.
  - cbn [Mach.le_encode Mach.le_decode].
    rewrite Z_of_byte_of_Z, IH, Nat2Z.inj_succ, Z.pow_succ_r by lia.
    rewrite Z.rem_mul_r by lia. reflexivity.
Qed.

Lemma to_int_to_DWORD (t : Z) : Mach.is_int t -> Mach.to_int (Mach.to_DWORD t) = t.
Proof.
  unfold Mach.is_int, Mach.to_int, Mach.to_DWORD, Mach.two31, Mach.two32.
  intros Ht. rewrite Z.mod_mod by lia.
  destruct (Z_lt_le_dec t 0) as [Hneg|Hpos].
  - replace (t mod 2 ^ 32) with (t + 2 ^ 32).
    + destruct (Z.ltb_spec (t + 2 ^ 32) (2 ^ 31)); lia.
    + symmetry. rewrite <- (Z.mod_add t 1 (2 ^ 32)) by lia.
      rewrite Z.mul_1_l. apply Z.mod_small. lia.
  - rewrite Z.mod_small by lia.
    destruct (Z.ltb_spec t (2 ^ 31)); lia.
Qed.

Lemma le_encode_length (n : nat) (z : Z) : length (Mach.le_encode n z) = n.
Proof. revert z. induction n as [|n IH]; intros z; simpl; [|rewrite IH]; reflexivity. Qed.

(** X8. [AfkLoadSettings] writes nothing but the two configuration
    globals: the applied flag, the saved plan, the last known plan, the
    host and the trace are as before, whatever the registry holds. *)
Theorem load_changes_only_config (s : Sys) :
  g_afkApplied (globals (exec AfkLoadSettings s)) = g_afkApplied (globals s) /\
  g_afkPrevGuid (globals (exec AfkLoadSettings s)) = g_afkPrevGuid (globals s) /\
  g_lastActiveGuid (globals (exec AfkLoadSettings s)) = g_lastActiveGuid (globals s) /\
  host (exec AfkLoadSettings s) = host s /\
  trace (exec AfkLoadSettings s) = trace s.
Proof.
  unfold exec. rewrite AfkLoadSettings_run. repeat split.
Qed.

(** X9. Without a key that can be opened for reading, because it does not
    exist or access is denied, [AfkLoadSettings] changes nothing: the
    configuration keeps the values it had. *)
Theorem load_without_key_is_noop (s : Sys) :
  reg_query_ok (os_registry (host s)) = false \/ reg_key (os_registry (host s)) = None ->
  exec AfkLoadSettings s = s.
Proof.
  intros Hkey. unfold exec. rewrite AfkLoadSettings_run.
  assert (Hr : readable_key (os_registry (host s)) = None).
  { unfold readable_key. destruct Hkey as [-> | ->]; [reflexivity|].
    now destruct (reg_query_ok _). }
  unfold load_target, load_timeout. rewrite Hr.
  destruct s as [[last t target prev applied] h tr]. reflexivity.
Qed.

Lemma load_without_key_is_noop_witness :
  exec AfkLoadSettings
    (Sample.a_sys 30 Sample.PlanB GUID_NULL false
       (Sample.a_host (Some Sample.PlanA) 0 true Cases.locked_key)) =
  Sample.a_sys 30 Sample.PlanB GUID_NULL false
    (Sample.a_host (Some Sample.PlanA) 0 true Cases.locked_key).
Proof.
  apply (load_without_key_is_noop
           (Sample.a_sys 30 Sample.PlanB GUID_NULL false
              (Sample.a_host (Some Sample.PlanA) 0 true Cases.locked_key))).
  left. reflexivity.
Defined.

(** X10. The two fields load independently: a target that is missing, not
    [REG_BINARY], or not 16 bytes long is ignored and the target keeps its
    value, while a well-formed timeout beside it is still loaded. *)
Theorem load_ignores_malformed_target (s : Sys) (k : gmap string RegValue)
    (dw : list byte) :
  reg_query_ok (os_registry (host s)) = true ->
  reg_key (os_registry (host s)) = Some k ->
  k !! "AfkTimeoutMinutes" = Some (mkRegValue REG_DWORD dw) ->
  length dw = 4%nat ->
  (forall v, k !! "AfkTargetPlan" = Some v ->
             rv_type v <> REG_BINARY \/ length (rv_data v) <> 16%nat) ->
  g_afkTimeoutMinutes (globals (exec AfkLoadSettings s)) = Mach.to_int (Mach.le_decode dw) /\
  g_afkTargetGuid (globals (exec AfkLoadSettings s)) = g_afkTargetGuid (globals s).
Proof.
  intros Hq Hk Hdw Hlen Hbad. unfold exec. rewrite AfkLoadSettings_run. simpl.
  split; [now apply (load_timeout_persisted _ k)|].
  unfold load_target, readable_key, RegGetValueW. rewrite Hq, Hk.
  destruct (k !! "AfkTargetPlan") as [v|] eqn:Hv; [|reflexivity].
  destruct (Hbad v eq_refl) as [Hty | Hsz].
  - replace (RegType_eqb (rv_type v) REG_BINARY) with false
      by (destruct (rv_type v); simpl; congruence).
    reflexivity.
  - destruct (RegType_eqb (rv_type v) REG_BINARY); [|reflexivity].
    rewrite guid_bytes_length. simpl andb.
    destruct (Z.leb_spec (Z.of_nat (length (rv_data v))) (Z.of_nat 16));
      [|reflexivity].
    replace (Z.of_nat (length (rv_data v)) =? sizeof_GUID) with false;
      [reflexivity|].
    symmetry. apply Z.eqb_neq. unfold sizeof_GUID. lia.
Qed.

Lemma load_ignores_malformed_target_witness :
  let s := Sample.a_sys 5 Sample.PlanA GUID_NULL false
             (Sample.a_host (Some Sample.PlanA) 0 true Cases.short_target_key) in
  g_afkTimeoutMinutes (globals (exec AfkLoadSettings s)) =
    Mach.to_int (Mach.le_decode [x1e; x00; x00; x00]) /\
  g_afkTargetGuid (globals (exec AfkLoadSettings s)) = g_afkTargetGuid (globals s).
Proof.
  apply (load_ignores_malformed_target
           (Sample.a_sys 5 Sample.PlanA GUID_NULL false
              (Sample.a_host (Some Sample.PlanA) 0 true Cases.short_target_key))
           (<["AfkTimeoutMinutes" := mkRegValue REG_DWORD [x1e; x00; x00; x00]]>
            (<["AfkTargetPlan" := mkRegValue REG_BINARY
                 [xda; x7f; x5e; x8c; xbf; xe8; x96; x4a]]> ∅))
           [x1e; x00; x00; x00]); try reflexivity.
  intros v Hv. vm_compute in Hv. injection Hv as <-. right. simpl. lia.
Defined.

(** X11. What is saved is what the next launch loads: after
    [AfkSaveSettings] on an accessible key, [AfkLoadSettings] run on fresh
    globals gives back the timeout (any [int], negative ones included) and
    the target. *)
Theorem load_after_save (s : Sys) :
  reg_query_ok (os_registry (host s)) = true ->
  reg_set_ok (os_registry (host s)) = true ->
  Mach.is_int (g_afkTimeoutMinutes (globals s)) ->
  let s' := exec AfkLoadSettings (with_globals initial_globals (exec AfkSaveSettings s)) in
  g_afkTimeoutMinutes (globals s') = g_afkTimeoutMinutes (globals s) /\
  g_afkTargetGuid (globals s') = g_afkTargetGuid (globals s).
Proof.
  intros Hq Hw Hint s'. subst s'. unfold exec.
  rewrite AfkSaveSettings_run, AfkLoadSettings_run.
  cbn [fst snd globals host trace with_globals g_afkTimeoutMinutes g_afkTargetGuid
       set_afkTargetGuid set_afkTimeoutMinutes].
  replace (os_registry (set_os_registry
             (saved (globals s) (os_registry (host s))) (host s)))
    with (saved (globals s) (os_registry (host s))) by reflexivity.
  set (r := saved (globals s) (os_registry (host s))).
  assert (Hq' : reg_query_ok r = true) by (unfold r, saved; now rewrite Hw).
  assert (Hk' : reg_key r =
    Some (<["AfkTargetPlan" :=
              mkRegValue REG_BINARY (guid_bytes (g_afkTargetGuid (globals s)))]>
            (<["AfkTimeoutMinutes" :=
                 mkRegValue REG_DWORD
                   (Mach.le_encode 4 (Mach.to_DWORD (g_afkTimeoutMinutes (globals s))))]>
               (key_values (os_registry (host s))))))
    by (unfold r, saved; now rewrite Hw).
  split.
  - rewrite (load_timeout_persisted r _
               (Mach.le_encode 4 (Mach.to_DWORD (g_afkTimeoutMinutes (globals s))))
               _ Hq' Hk').
    + rewrite le_decode_encode.
      change (256 ^ Z.of_nat 4) with Mach.two32.
      unfold Mach.to_DWORD at 1. rewrite Z.mod_mod by (unfold Mach.two32; lia).
      now apply to_int_to_DWORD.
    + rewrite lookup_insert_ne by discriminate. apply lookup_insert_eq.
    + apply le_encode_length.
  - apply guid_bytes_inj.
    apply (load_target_persisted r _ _ _ Hq' Hk').
    + apply lookup_insert_eq.
    + apply guid_bytes_length.
Qed.

Lemma load_after_save_witness :
  let s := Sample.a_sys (-3) Sample.PlanB GUID_NULL false
             (Sample.a_host (Some Sample.PlanA) 0 true Sample.no_key) in
  let s' := exec AfkLoadSettings (with_globals initial_globals (exec AfkSaveSettings s)) in
  g_afkTimeoutMinutes (globals s') = g_afkTimeoutMinutes (globals s) /\
  g_afkTargetGuid (globals s') = g_afkTargetGuid (globals s).
Proof.
  apply (load_after_save
           (Sample.a_sys (-3) Sample.PlanB GUID_NULL false
              (Sample.a_host (Some Sample.PlanA) 0 true Sample.no_key)));
    try reflexivity.
  vm_compute. split; [intros H; discriminate H | reflexivity].
Defined.

(** X12. [AfkSaveSettings] writes two values and nothing else: every other
    value of the key reads as before, and the globals, the trace and the
    active plan are untouched. *)
Theorem save_writes_two_values (s : Sys) (valueName : string) :
  valueName <> "AfkTimeoutMinutes" ->
  valueName <> "AfkTargetPlan" ->
  key_values (os_registry (host (exec AfkSaveSettings s))) !! valueName =
    key_values (os_registry (host s)) !! valueName /\
  globals (exec AfkSaveSettings s) = globals s /\
  trace (exec AfkSaveSettings s) = trace s /\
  os_active (host (exec AfkSaveSettings s)) = os_active (host s).
Proof.
  intros H1 H2. unfold exec. rewrite AfkSaveSettings_run. simpl.
  repeat split.
  replace (os_registry (set_os_registry
             (saved (globals s) (os_registry (host s))) (host s)))
    with (saved (globals s) (os_registry (host s))) by reflexivity.
  unfold saved. destruct (reg_set_ok (os_registry (host s))); [|reflexivity].
  unfold key_values at 1. simpl.
  rewrite !lookup_insert_ne by congruence. reflexivity.
Qed.

Lemma save_writes_two_values_witness :
  key_values (os_registry (host (exec AfkSaveSettings Cases.configured))) !! "Language" =
    key_values (os_registry (host Cases.configured)) !! "Language" /\
  globals (exec AfkSaveSettings Cases.configured) = globals Cases.configured /\
  trace (exec AfkSaveSettings Cases.configured) = trace Cases.configured /\
  os_active (host (exec AfkSaveSettings Cases.configured)) =
    os_active (host Cases.configured).
Proof.
  apply (save_writes_two_values Cases.configured "Language"); discriminate.
Defined.

(** X13. When the key cannot be opened or created for writing,
    [AfkSaveSettings] does nothing at all; the failure is not reported and
    the in-memory configuration stays in force. *)
Theorem save_refused_is_noop (s : Sys) :
  reg_set_ok (os_registry (host s)) = false ->
  exec AfkSaveSettings s = s.
Proof.
  intros Hw. unfold exec. rewrite AfkSaveSettings_run. simpl.
  unfold saved. rewrite Hw.
  destruct s as [g h tr]. destruct h. reflexivity.
Qed.

Lemma save_refused_is_noop_witness :
  exec AfkSaveSettings
    (Sample.a_sys 30 Sample.PlanB GUID_NULL false
       (Sample.a_host (Some Sample.PlanA) 0 true Cases.locked_key)) =
  Sample.a_sys 30 Sample.PlanB GUID_NULL false
    (Sample.a_host (Some Sample.PlanA) 0 true Cases.locked_key).
Proof.
  apply (save_refused_is_noop
           (Sample.a_sys 30 Sample.PlanB GUID_NULL false
              (Sample.a_host (Some Sample.PlanA) 0 true Cases.locked_key))).
  reflexivity.
Defined.

(** X14. A persisted timeout with its top bit set loads as a negative
    [int] (the [DWORD] less 2^32), which the tick takes for "disabled":
    after such a load no tick does anything. *)
Theorem high_timeout_loads_disabled (s : Sys) (h : Host)
    (k : gmap string RegValue) (dw : list byte) :
  reg_query_ok (os_registry (host s)) = true ->
  reg_key (os_registry (host s)) = Some k ->
  k !! "AfkTimeoutMinutes" = Some (mkRegValue REG_DWORD dw) ->
  length dw = 4%nat ->
  Mach.two31 <= Mach.le_decode dw ->
  let s' := exec AfkLoadSettings s in
  g_afkTimeoutMinutes (globals s') = Mach.le_decode dw - Mach.two32 /\
  g_afkTimeoutMinutes (globals s') < 0 /\
  exec AfkCheckTick (with_host h s') = with_host h s'.
Proof.
  intros Hq Hk Hdw Hlen Hhigh s'.
  assert (Ht : g_afkTimeoutMinutes (globals s') = Mach.le_decode dw - Mach.two32).
  { subst s'. unfold exec. rewrite AfkLoadSettings_run. simpl.
    rewrite (load_timeout_persisted _ k dw _ Hq Hk Hdw Hlen).
    pose proof (le_decode_range dw) as Hr. rewrite Hlen in Hr.
    change (256 ^ Z.of_nat 4) with Mach.two32 in Hr.
    unfold Mach.to_int. rewrite Z.mod_small by exact Hr.
    destruct (Z.ltb_spec (Mach.le_decode dw) Mach.two31); [lia | reflexivity]. }
  pose proof (le_decode_range dw) as Hr. rewrite Hlen in Hr.
  change (256 ^ Z.of_nat 4) with Mach.two32 in Hr.
  split; [exact Ht|]. split; [lia|].
  unfold exec. rewrite tick_disabled; [reflexivity|]. simpl. lia.
Qed.

Lemma high_timeout_loads_disabled_witness :
  let s := initial (Sample.a_host (Some Sample.PlanA) 0 true Cases.high_timeout_key) in
  let h := Sample.a_host (Some Sample.PlanA) 100000 true Cases.high_timeout_key in
  let s' := exec AfkLoadSettings s in
  g_afkTimeoutMinutes (globals s') = Mach.le_decode [x05; x00; x00; x80] - Mach.two32 /\
  g_afkTimeoutMinutes (globals s') < 0 /\
  exec AfkCheckTick (with_host h s') = with_host h s'.
Proof.
  apply (high_timeout_loads_disabled
           (initial (Sample.a_host (Some Sample.PlanA) 0 true Cases.high_timeout_key))
           (Sample.a_host (Some Sample.PlanA) 100000 true Cases.high_timeout_key)
           (<["AfkTimeoutMinutes" := mkRegValue REG_DWORD [x05; x00; x00; x80]]>
            (<["AfkTargetPlan" := mkRegValue REG_BINARY (guid_bytes Sample.PlanB)]> ∅))
           [x05; x00; x00; x80]); try reflexivity.
  vm_compute. intros H; discriminate H.
Defined.

(** ** The tracker and the menu commands *)

Lemma poll_effect (s : Sys) :
  host (exec OnPollActive s) = host s /\
  activations (trace (exec OnPollActive s)) = activations (trace s) /\
  g_afkTimeoutMinutes (globals (exec OnPollActive s)) = g_afkTimeoutMinutes (globals s) /\
  g_afkTargetGuid (globals (exec OnPollActive s)) = g_afkTargetGuid (globals s) /\
  g_afkPrevGuid (globals (exec OnPollActive s)) = g_afkPrevGuid (globals s) /\
  g_afkApplied (globals (exec OnPollActive s)) = g_afkApplied (globals s) /\
  g_lastActiveGuid (globals (exec OnPollActive s)) =
    match os_active (host s) with
    | Some a => a
    | None => g_lastActiveGuid (globals s)
    end.
Proof.
  destruct s as [[last t target prev applied] h tr]. unfold exec. simpl.
  destruct (os_active h) as [c|] eqn:Hact;
    [destruct (IsEqualGUID c last) eqn:E|]; run; simpl;
    rewrite ?activations_app, ?app_nil_r; simpl; rewrite ?app_nil_r;
    repeat split; try assumption.
  apply IsEqualGUID_true in E. congruence.
Qed.

(** X15. The poll is idempotent: run twice with the host unchanged, the
    second run changes nothing. After one run the last known plan is the
    active plan whenever it can be read, and is kept when it cannot. *)
Theorem poll_is_idempotent (s : Sys) :
  exec OnPollActive (exec OnPollActive s) = exec OnPollActive s /\
  g_lastActiveGuid (globals (exec OnPollActive s)) =
    match os_active (host s) with
    | Some a => a
    | None => g_lastActiveGuid (globals s)
    end.
Proof.
  split; [|apply poll_effect].
  destruct s as [[last t target prev applied] h tr]. unfold exec.
  destruct (os_active h) as [c|] eqn:Hact;
    [destruct (IsEqualGUID c last) eqn:E|];
    try pose proof (IsEqualGUID_refl c) as Er; now run.
Qed.

(** X16. A forcing tick whose activation the host refuses leaves the last
    known plan on the target although the active plan has not moved; the
    next poll puts it back on the plan really active, while the engine
    stays applied with that plan saved. *)
Theorem poll_corrects_failed_forcing (s : Sys) (a : GUID) :
  let t := g_afkTimeoutMinutes (globals s) in
  let target := g_afkTargetGuid (globals s) in
  0 < t ->
  threshold t <= GetIdleSeconds (host s) ->
  g_afkApplied (globals s) = false ->
  os_active (host s) = Some a ->
  target <> GUID_NULL ->
  target <> a ->
  os_accepts (host s) target = false ->
  let s1 := exec AfkCheckTick s in
  let s2 := exec OnPollActive s1 in
  g_lastActiveGuid (globals s1) = target /\
  os_active (host s1) = Some a /\
  g_lastActiveGuid (globals s2) = a /\
  g_afkApplied (globals s2) = true /\
  g_afkPrevGuid (globals s2) = a.
Proof.
  intros t target Ht Hidle Happ Hact Hset Hne Hfail s1 s2.
  assert (Hcur : cur_plan (host s) = a) by (unfold cur_plan; now rewrite Hact).
  assert (Hf : fires a target = true) by (apply fires_true; split; congruence).
  destruct (tick_force s Ht Hidle Happ) as (Ha1 & Hp1 & _ & _ & Hl1 & _ & Hh1).
  fold s1 t target in Ha1, Hp1, Hl1, Hh1.
  rewrite Hcur in Hp1, Hl1, Hh1. rewrite Hf in Hl1, Hh1.
  assert (Hact1 : os_active (host s1) = Some a).
  { rewrite Hh1. unfold activated. now rewrite Hfail. }
  destruct (poll_effect s1) as (_ & _ & _ & _ & Hp2 & Ha2 & Hl2).
  fold s2 in Hp2, Ha2, Hl2. rewrite Hact1 in Hl2.
  repeat split; congruence.
Qed.

Lemma poll_corrects_failed_forcing_witness :
  let s := Sample.scenario_A false in
  let s1 := exec AfkCheckTick s in
  let s2 := exec OnPollActive s1 in
  g_lastActiveGuid (globals s1) = Sample.PlanB /\
  os_active (host s1) = Some Sample.PlanA /\
  g_lastActiveGuid (globals s2) = Sample.PlanA /\
  g_afkApplied (globals s2) = true /\
  g_afkPrevGuid (globals s2) = Sample.PlanA.
Proof.
  apply (poll_corrects_failed_forcing (Sample.scenario_A false) Sample.PlanA);
    vm_compute; congruence.
Defined.

Lemma select_plan_effect (cmd : Z) (s : Sys) :
  let index := Z.to_nat (Mach.to_DWORD (cmd - ID_BASE_PLAN)) in
  let s1 := exec (OnSelectPlan cmd) s in
  let s2 := exec OnPollActive s1 in
  globals s1 = globals s /\
  (EnumeratePlans (host s) !! index = None -> s1 = s) /\
  (forall p,
     EnumeratePlans (host s) !! index = Some p ->
     activations (trace s1) = activations (trace s) ++ [guid p] /\
     (os_accepts (host s) (guid p) = true ->
      os_active (host s1) = Some (guid p) /\
      g_lastActiveGuid (globals s2) = guid p /\
      activations (trace s2) = activations (trace s1))).
Proof.
  intros index s1 s2. split; [apply OnSelectPlan_keeps_globals|].
  assert (Hrun : forall p, EnumeratePlans (host s) !! index = Some p ->
    activations (trace s1) = activations (trace s) ++ [guid p] /\
    host s1 = activated (guid p) (host s)).
  { intros p Hp. subst s1 index. destruct s as [g h tr]. unfold exec.
    simpl in Hp. run. rewrite !activations_app. simpl. now rewrite app_nil_r. }
  split.
  - intros Hnone. subst s1 index. destruct s as [g h tr]. unfold exec.
    simpl in Hnone. now run.
  - intros p Hp. destruct (Hrun p Hp) as (Hc & Hh). split; [exact Hc|].
    intros Hok.
    assert (Hact : os_active (host s1) = Some (guid p)).
    { rewrite Hh. unfold activated. now rewrite Hok. }
    destruct (poll_effect s1) as (_ & Hc2 & _ & _ & _ & _ & Hl2).
    fold s2 in Hc2, Hl2. rewrite Hact in Hl2. auto.
Qed.

(** X17. Picking a plan in the menu activates it and refreshes the tooltip
    but leaves every global alone, the last known plan included; the next
    poll brings the last known plan up to it. An index past the end of the
    list does nothing. *)
Theorem select_then_poll (cmd : Z) (s : Sys) :
  let index := Z.to_nat (Mach.to_DWORD (cmd - ID_BASE_PLAN)) in
  let s1 := exec (OnSelectPlan cmd) s in
  let s2 := exec OnPollActive s1 in
  globals s1 = globals s /\
  (EnumeratePlans (host s) !! index = None -> s1 = s) /\
  (forall p,
     EnumeratePlans (host s) !! index = Some p ->
     activations (trace s1) = activations (trace s) ++ [guid p] /\
     (os_accepts (host s) (guid p) = true ->
      os_active (host s1) = Some (guid p) /\
      g_lastActiveGuid (globals s2) = guid p /\
      activations (trace s2) = activations (trace s1))).
Proof. exact (select_plan_effect cmd s). Qed.

Lemma interval_effect (cmd : Z) (s : Sys) :
  let idx := cmd - IDM_AFK_INTERVAL_BASE in
  let s' := exec (OnAfkInterval cmd) s in
  trace s' = trace s /\
  g_afkApplied (globals s') = g_afkApplied (globals s) /\
  g_afkPrevGuid (globals s') = g_afkPrevGuid (globals s) /\
  g_afkTargetGuid (globals s') = g_afkTargetGuid (globals s) /\
  g_lastActiveGuid (globals s') = g_lastActiveGuid (globals s) /\
  os_active (host s') = os_active (host s) /\
  (0 <= idx < 7 ->
   exists m,
     intervals !! Z.to_nat idx = Some m /\ 0 < m /\
     g_afkTimeoutMinutes (globals s') = m /\
     os_registry (host s') =
       saved (set_afkTimeoutMinutes m (globals s)) (os_registry (host s))) /\
  (~ 0 <= idx < 7 -> s' = s).
Proof.
  intros idx s'. subst s' idx.
  destruct s as [[last t target prev applied] h tr]. unfold exec, OnAfkInterval.
  destruct ((0 <=? cmd - IDM_AFK_INTERVAL_BASE) && (cmd - IDM_AFK_INTERVAL_BASE <? 7))
    eqn:Hin.
  - apply andb_true_iff in Hin as [H0 H7].
    apply Z.leb_le in H0. apply Z.ltb_lt in H7.
    assert (Hlt : (Z.to_nat (cmd - IDM_AFK_INTERVAL_BASE) < length intervals)%nat)
      by (simpl; lia).
    apply lookup_lt_is_Some_2 in Hlt as [m Hm]. rewrite Hm.
    pose proof (Forall_lookup_1 _ _ _ _ intervals_positive Hm) as Hpos.
    run. simpl. repeat split; try (intros; lia).
    intros _. exists m. repeat split; auto.
  - assert (Hout : ~ 0 <= cmd - IDM_AFK_INTERVAL_BASE < 7).
    { intros [H0 H7]. apply Z.leb_le in H0. apply Z.ltb_lt in H7.
      rewrite H0, H7 in Hin. discriminate Hin. }
    simpl. repeat split; intros; tauto.
Qed.

(** X18. A timeout command never touches the engine's runtime state or
    the host's plans: it requests no activation and leaves the applied
    flag, the saved plan, the target and the last known plan alone (a new
    timeout counts from the next tick). Offsets 0 to 6 set the timeout to
    the table's entry, always positive, and save it; the other 93 ids of
    the range do nothing. *)
Theorem interval_command (cmd : Z) (s : Sys) :
  let idx := cmd - IDM_AFK_INTERVAL_BASE in
  let s' := exec (OnAfkInterval cmd) s in
  trace s' = trace s /\
  g_afkApplied (globals s') = g_afkApplied (globals s) /\
  g_afkPrevGuid (globals s') = g_afkPrevGuid (globals s) /\
  g_afkTargetGuid (globals s') = g_afkTargetGuid (globals s) /\
  g_lastActiveGuid (globals s') = g_lastActiveGuid (globals s) /\
  os_active (host s') = os_active (host s) /\
  (0 <= idx < 7 ->
   exists m,
     intervals !! Z.to_nat idx = Some m /\ 0 < m /\
     g_afkTimeoutMinutes (globals s') = m /\
     os_registry (host s') =
       saved (set_afkTimeoutMinutes m (globals s)) (os_registry (host s))) /\
  (~ 0 <= idx < 7 -> s' = s).
Proof. exact (interval_effect cmd s). Qed.

(** The 10-minute entry, picked while applied. *)
Example interval_command_10_minutes :
  let s' := exec (OnAfkInterval (IDM_AFK_INTERVAL_BASE + 2)) Sample.scenario_B in
  g_afkTimeoutMinutes (globals s') = 10 /\
  g_afkApplied (globals s') = true /\
  trace s' = [].
Proof. repeat split; reflexivity. Qed.

Lemma target_effect (cmd : Z) (s : Sys) :
  let index := Z.to_nat (Mach.to_DWORD (cmd - IDM_AFK_TARGET_BASE)) in
  let s' := exec (OnAfkTarget cmd) s in
  trace s' = trace s /\
  g_afkApplied (globals s') = g_afkApplied (globals s) /\
  g_afkPrevGuid (globals s') = g_afkPrevGuid (globals s) /\
  g_afkTimeoutMinutes (globals s') = g_afkTimeoutMinutes (globals s) /\
  g_lastActiveGuid (globals s') = g_lastActiveGuid (globals s) /\
  os_active (host s') = os_active (host s) /\
  (forall p,
     EnumeratePlans (host s) !! index = Some p ->
     g_afkTargetGuid (globals s') = guid p /\
     os_registry (host s') =
       saved (set_afkTargetGuid (guid p) (globals s)) (os_registry (host s))) /\
  (EnumeratePlans (host s) !! index = None -> s' = s).
Proof.
  intros index s'. subst s' index.
  destruct s as [[last t target prev applied] h tr]. unfold exec. simpl.
  destruct (EnumeratePlans h !! Z.to_nat (Mach.to_DWORD (cmd - IDM_AFK_TARGET_BASE)))
    as [p|] eqn:E; run; simpl; repeat split; try discriminate;
    congruence.
Qed.

(** X19. A target command takes the plan from a fresh enumeration: with an
    index inside the list it sets the target to that plan's GUID and
    saves it; past the end it does nothing. Either way it requests no
    activation and leaves the applied flag, the saved plan, the timeout
    and the last known plan alone. *)
Theorem target_command (cmd : Z) (s : Sys) :
  let index := Z.to_nat (Mach.to_DWORD (cmd - IDM_AFK_TARGET_BASE)) in
  let s' := exec (OnAfkTarget cmd) s in
  trace s' = trace s /\
  g_afkApplied (globals s') = g_afkApplied (globals s) /\
  g_afkPrevGuid (globals s') = g_afkPrevGuid (globals s) /\
  g_afkTimeoutMinutes (globals s') = g_afkTimeoutMinutes (globals s) /\
  g_lastActiveGuid (globals s') = g_lastActiveGuid (globals s) /\
  os_active (host s') = os_active (host s) /\
  (forall p,
     EnumeratePlans (host s) !! index = Some p ->
     g_afkTargetGuid (globals s') = guid p /\
     os_registry (host s') =
       saved (set_afkTargetGuid (guid p) (globals s)) (os_registry (host s))) /\
  (EnumeratePlans (host s) !! index = None -> s' = s).
Proof. exact (target_effect cmd s). Qed.

(** The second plan of the list, picked as target. *)
Example target_command_second_plan :
  let s' := exec (OnAfkTarget (IDM_AFK_TARGET_BASE + 1)) Sample.in_sync in
  g_afkTargetGuid (globals s') = Sample.PlanB /\
  load_target (os_registry (host s')) GUID_NULL = Sample.PlanB.
Proof. split; reflexivity. Qed.

(** ** Startup *)

(** X20. Startup never restores runtime state: whatever the registry
    holds, the engine starts not applied with no plan saved, and the host
    is left as it was. With a window, the last known plan is the plan read
    (all-zero when unreadable) and exactly the poll timer (2000 ms) and the
    AFK timer (1000 ms) are set; without one, nothing happens at all. *)
Theorem startup_runtime_state (h : Host) :
  let s' := exec CreateHiddenWindow (initial h) in
  g_afkApplied (globals s') = false /\
  g_afkPrevGuid (globals s') = GUID_NULL /\
  host s' = h /\
  (os_window_ok h = true ->
   eval CreateHiddenWindow (initial h) = true /\
   g_lastActiveGuid (globals s') = cur_plan h /\
   trace s' =
     [Shell_NotifyIcon_ADD (StringCchCopy szTip_size (res_tooltip_default h));
      Shell_NotifyIcon_MODIFY (tray_tip h);
      RegisterPowerSettingNotification;
      SetTimer TIMER_EVENT_POLL_ACTIVE 2000;
      SetTimer TIMER_EVENT_AFK_CHECK 1000]) /\
  (os_window_ok h = false ->
   eval CreateHiddenWindow (initial h) = false /\ s' = initial h).
Proof.
  intros s'. subst s'. unfold exec, eval, initial, initial_globals, cur_plan.
  destruct (os_window_ok h) eqn:Hwin;
    [destruct (IsEqualGUID (load_target (os_registry h) GUID_NULL) GUID_NULL) eqn:E;
     destruct (os_active h) as [c|] eqn:Hact|];
    run; simpl; repeat split; intros; try discriminate; repeat split.
Qed.

(** ** Idle time *)

(** X21. [GetIdleSeconds] never under-reports. When the last input came
    at tick [lastInput] of the 64-bit clock, its stamp being the low 32
    bits, the result is at least the whole seconds elapsed since then, and
    exactly those while the clock is below 2^32 ms. *)
Theorem idle_seconds_never_under_reports (h : Host) (lastInput : Z) :
  0 <= lastInput <= os_tick_count h ->
  os_last_input h = Some (Mach.to_DWORD lastInput) ->
  os_tick_count h < Mach.two32 * 1000 ->
  (os_tick_count h - lastInput) / 1000 <= GetIdleSeconds h /\
  (os_tick_count h < Mach.two32 ->
   GetIdleSeconds h = (os_tick_count h - lastInput) / 1000).
Proof.
  intros Hlast Hli Hnow. unfold GetIdleSeconds. rewrite Hli.
  unfold Mach.to_DWORD, Mach.two32 in *.
  pose proof (Z.mod_pos_bound lastInput (2 ^ 32) ltac:(lia)) as Hm.
  pose proof (Z.mod_le lastInput (2 ^ 32) ltac:(lia) ltac:(lia)) as Hle.
  cbv zeta.
  destruct (Z.ltb_spec (os_tick_count h) (lastInput mod 2 ^ 32)) as [Hlt|Hge];
    [lia|].
  rewrite (Z.mod_small ((os_tick_count h - lastInput mod 2 ^ 32) / 1000)).
  - split.
    + apply Z.div_le_mono; lia.
    + intros Hsmall. rewrite (Z.mod_small lastInput) by lia. reflexivity.
  - split; [apply Z.div_pos; lia|].
    apply Z.div_lt_upper_bound; lia.
Qed.

(** After 50 days of uptime, two seconds after the last input. *)
Lemma idle_seconds_never_under_reports_witness :
  (os_tick_count Cases.long_uptime - (4320000000 - 2000)) / 1000 <=
    GetIdleSeconds Cases.long_uptime /\
  (os_tick_count Cases.long_uptime < Mach.two32 ->
   GetIdleSeconds Cases.long_uptime =
     (os_tick_count Cases.long_uptime - (4320000000 - 2000)) / 1000).
Proof.
  apply (idle_seconds_never_under_reports Cases.long_uptime (4320000000 - 2000)).
  - vm_compute. split; intros H; discriminate H.
  - reflexivity.
  - reflexivity.
Defined.

(** X22. The input stamp is a 32-bit tick count while the clock read is
    the 64-bit one: once the clock has passed 2^32 ms (49.7 days of
    uptime) the difference counts the wrapped part as idle time, so the
    idle time reported is at least the uptime beyond 2^32 ms, however
    recent the last input. *)
Theorem idle_seconds_past_tick_wrap (h : Host) (dwTime : Z) :
  os_last_input h = Some dwTime ->
  Mach.is_DWORD dwTime ->
  Mach.two32 <= os_tick_count h < Mach.two32 * 1000 ->
  (os_tick_count h - (Mach.two32 - 1)) / 1000 <= GetIdleSeconds h.
Proof.
  intros Hli Hdw Hnow. unfold GetIdleSeconds, Mach.to_DWORD, Mach.is_DWORD in *.
  rewrite Hli. unfold Mach.two32 in *.
  destruct (Z.ltb_spec (os_tick_count h) dwTime) as [Hlt|Hge]; [lia|].
  rewrite Z.mod_small.
  - apply Z.div_le_mono; lia.
  - split; [apply Z.div_pos; lia|].
    apply Z.div_lt_upper_bound; lia.
Qed.

(** After 50 days, two seconds after the last input. *)
Lemma idle_seconds_past_tick_wrap_witness :
  (os_tick_count Cases.long_uptime - (Mach.two32 - 1)) / 1000 <=
  GetIdleSeconds Cases.long_uptime.
Proof.
  apply (idle_seconds_past_tick_wrap Cases.long_uptime (4320000000 - 2000 - 4294967296)).
  - reflexivity.
  - vm_compute. split; [intros H; discriminate H | reflexivity].
  - vm_compute. split; [intros H; discriminate H | reflexivity].
Defined.

Example idle_seconds_long_uptime : GetIdleSeconds Cases.long_uptime = 4294969.
Proof. reflexivity. Qed.

(** ** The menu and its commands *)









(** X25. The timeout entries and their commands agree, although the menu
    and the handler each carry their own table: after the command of the
    [i]-th interval entry the menu built next checks that entry and no
    other, and after "Off" it checks "Off" and no other. *)
Theorem timeout_menu_follows_commands (sAfkOff : string)
    (intervalLabel : nat -> string) (s : Sys) (i : nat) :
  (i < 7)%nat ->
  is_checked <$>
    timeout_entries sAfkOff intervalLabel
      (globals (exec (OnAfkInterval (IDM_AFK_INTERVAL_BASE + Z.of_nat i)) s)) =
    (fun k => Nat.eqb k (S i)) <$> seq 0 8 /\
  mi_id <$> timeout_entries sAfkOff intervalLabel (globals s) =
    IDM_AFK_OFF :: ((fun k => IDM_AFK_INTERVAL_BASE + Z.of_nat k) <$> seq 0 7) /\
  is_checked <$> timeout_entries sAfkOff intervalLabel (globals (exec OnAfkOff s)) =
    (fun k => Nat.eqb k 0) <$> seq 0 8.
Proof.
  intros Hi. split; [|split].
  - pose proof (interval_effect (IDM_AFK_INTERVAL_BASE + Z.of_nat i) s)
      as (_ & _ & _ & _ & _ & _ & Hset & _).
    replace (IDM_AFK_INTERVAL_BASE + Z.of_nat i - IDM_AFK_INTERVAL_BASE)
      with (Z.of_nat i) in Hset by lia.
    destruct Hset as (m & Hm & _ & Htm & _); [lia|].
    rewrite Nat2Z.id in Hm.
    unfold timeout_entries. rewrite Htm.
    do 7 (destruct i as [|i]; [injection Hm as <-; reflexivity|]). lia.
  - reflexivity.
  - unfold timeout_entries. rewrite OnAfkOff_timeout. reflexivity.
Qed.

Lemma timeout_menu_follows_commands_witness :
  is_checked <$>
    timeout_entries "Off" (fun _ => "minutes")
      (globals (exec (OnAfkInterval (IDM_AFK_INTERVAL_BASE + Z.of_nat 3))
                  Cases.configured)) =
    (fun k => Nat.eqb k 4) <$> seq 0 8 /\
  mi_id <$> timeout_entries "Off" (fun _ => "minutes") (globals Cases.configured) =
    IDM_AFK_OFF :: ((fun k => IDM_AFK_INTERVAL_BASE + Z.of_nat k) <$> seq 0 7) /\
  is_checked <$> timeout_entries "Off" (fun _ => "minutes")
                   (globals (exec OnAfkOff Cases.configured)) =
    (fun k => Nat.eqb k 0) <$> seq 0 8.
Proof.
  apply (timeout_menu_follows_commands "Off" (fun _ => "minutes") Cases.configured 3).
  lia.
Defined.

(** X26. A timeout that is neither 0 nor in the table, as a registry value
    written by hand can be, leaves every timeout entry unchecked, "Off"
    included. *)
Theorem timeout_menu_unlisted (sAfkOff : string) (intervalLabel : nat -> string)
    (g : Globals) :
  g_afkTimeoutMinutes g <> 0 ->
  ~ In (g_afkTimeoutMinutes g) menu_intervals ->
  is_checked <$> timeout_entries sAfkOff intervalLabel g = repeat false 8.
Proof.
  intros H0 Hnot. unfold timeout_entries.
  replace (g_afkTimeoutMinutes g =? 0) with false by (symmetry; now apply Z.eqb_neq).
  cbn [seq map fmap list_fmap nth menu_intervals].
  repeat match goal with
         | |- context [g_afkTimeoutMinutes g =? ?m] =>
             replace (g_afkTimeoutMinutes g =? m) with false
               by (symmetry; apply Z.eqb_neq; intros E; apply Hnot; rewrite E;
                   simpl; tauto)
         end.
  reflexivity.
Qed.

Lemma timeout_menu_unlisted_witness :
  is_checked <$>
    timeout_entries "Off" (fun _ => "minutes")
      (globals (Sample.a_sys 7 Sample.PlanB GUID_NULL false
                  (Sample.a_host (Some Sample.PlanA) 0 true Sample.no_key))) =
  repeat false 8.
Proof.
  apply (timeout_menu_unlisted "Off" (fun _ => "minutes")
           (globals (Sample.a_sys 7 Sample.PlanB GUID_NULL false
                       (Sample.a_host (Some Sample.PlanA) 0 true Sample.no_key)))).
  - discriminate.
  - simpl. intuition discriminate.
Defined.



(** ** The disabled tick within a run *)




Example switched_off_run :
  g_afkApplied (globals Cases.launched_then_idle) = true /\
  activations (trace Cases.launched_then_idle) = [Sample.PlanB] /\
  activations (trace Runs.switched_off) = [Sample.PlanB; Sample.PlanA] /\
  g_afkTimeoutMinutes (globals Runs.switched_off) = 0.
Proof. repeat split; reflexivity. Qed.

(** ** Recovery and the wrapped threshold *)

(** C6, as the code has it. For a timeout whose seconds fit 32 bits (up to
    71582788 minutes), from the applied state a tick with idle time under
    [timeoutMinutes * 60] reads the active plan; when it differs from a
    set [g_afkPrevGuid] the tick activates [g_afkPrevGuid] exactly once and
    moves [g_lastActiveGuid] to it, otherwise it activates nothing; either
    way [g_afkApplied] is cleared. *)
Theorem restore_on_recovery_in_range (s : Sys) :
  0 < g_afkTimeoutMinutes (globals s) <= 71582788 ->
  GetIdleSeconds (host s) < g_afkTimeoutMinutes (globals s) * 60 ->
  g_afkApplied (globals s) = true ->
  let s' := exec AfkCheckTick s in
  let prev := g_afkPrevGuid (globals s) in
  g_afkApplied (globals s') = false /\
  (cur_plan (host s) <> prev /\ prev <> GUID_NULL ->
   activations (trace s') = activations (trace s) ++ [prev] /\
   g_lastActiveGuid (globals s') = prev) /\
  (~ (cur_plan (host s) <> prev /\ prev <> GUID_NULL) ->
   activations (trace s') = activations (trace s) /\
   g_lastActiveGuid (globals s') = g_lastActiveGuid (globals s)).
Proof.
  intros Ht Hidle Happ.
  apply restore_on_threshold; [lia | | exact Happ].
  rewrite threshold_no_wrap by lia. exact Hidle.
Qed.

Lemma restore_on_recovery_in_range_witness :
  let s := Sample.scenario_B in
  let s' := exec AfkCheckTick s in
  let prev := g_afkPrevGuid (globals s) in
  g_afkApplied (globals s') = false /\
  (cur_plan (host s) <> prev /\ prev <> GUID_NULL ->
   activations (trace s') = activations (trace s) ++ [prev] /\
   g_lastActiveGuid (globals s') = prev) /\
  (~ (cur_plan (host s) <> prev /\ prev <> GUID_NULL) ->
   activations (trace s') = activations (trace s) /\
   g_lastActiveGuid (globals s') = g_lastActiveGuid (globals s)).
Proof.
  apply (restore_on_recovery_in_range Sample.scenario_B).
  - vm_compute. split; [reflexivity | intros H; discriminate H].
  - reflexivity.
  - reflexivity.
Defined.

(** C6 as stated fails. A run: launched over a key holding 71582789
    minutes and target [PlanB], with [PlanA] active; a tick after 60 idle
    seconds forces [PlanB] (the threshold computed is 44 s); the next tick
    comes 51 s after the last input, under 71582789 * 60 s, with [PlanA]
    saved and [PlanB] active, and restores nothing. *)
Lemma recovery_wrapped_threshold_counterexample :
  reachable Sample.IDM_EXIT Runs.wrap_recovering /\
  g_afkTimeoutMinutes (globals Runs.wrap_recovering) = 71582789 /\
  g_afkApplied (globals Runs.wrap_recovering) = true /\
  GetIdleSeconds (host Runs.wrap_recovering) = 51 /\
  GetIdleSeconds (host Runs.wrap_recovering) <
    g_afkTimeoutMinutes (globals Runs.wrap_recovering) * 60 /\
  g_afkPrevGuid (globals Runs.wrap_recovering) = Sample.PlanA /\
  cur_plan (host Runs.wrap_recovering) = Sample.PlanB /\
  g_afkApplied (globals (exec AfkCheckTick Runs.wrap_recovering)) <> false /\
  activations (trace (exec AfkCheckTick Runs.wrap_recovering)) =
    activations (trace Runs.wrap_recovering).
Proof.
  split.
  { unfold Runs.wrap_recovering, Runs.wrap_forced, Runs.wrap_launched.
    apply reach_host, reach_message, reach_host, reach_startup. reflexivity. }
  repeat split; try reflexivity. vm_compute. discriminate.
Qed.
